(** * LLM-Mood-Tuner: the scoring engines, embedded and verified

    A shallow embedding of the three engines of the repository

    - [engines/linguistic.py]  (class [LinguisticEngine]),
    - [engines/emotional.py]   (class [EmotionalEngine]),
    - [engines/behavioral.py]  (class [BehavioralEngine]),

    followed by the properties of the specification that concern them.

    Modelling conventions.

    - A Python [float] is an IEEE-754 binary64 number, so it is a primitive
      [float] here; a decimal literal denotes the nearest binary64 value in
      both languages.  Arithmetic and comparisons are the primitive ones.
    - A Python [int] is a [Z].
    - A Python [str] is a [string]; its characters are the code points
      0..255, and the character classes below follow Python on that range.
    - A dictionary with a fixed set of literal keys is a record; a
      dictionary whose key set varies ([topic_performance], the reply
      object of the language model) is a [gmap] with string keys.
    - Methods that mutate [self] take the engine state and return the new
      one.  [datetime.now()] is an explicit argument [now]: one reading of
      the clock per call, in microseconds. *)

From Stdlib Require Import ZArith List String Ascii Bool Lia.
From Stdlib Require Import PrimFloat FloatOps SpecFloat FloatAxioms.
From stdpp Require Import gmap strings list fin_maps.

Set Warnings "-inexact-float,-register-all".

(** ** Python built-ins used by the engines *)

Module Py.

Definition timestamp := Z.

(** [a < b] and [a > b] on floats. *)
Definition flt (a b : float) : bool := PrimFloat.ltb a b.
Definition fgt (a b : float) : bool := PrimFloat.ltb b a.

(** [min(a, b)] and [max(a, b)]: the first argument is kept unless the
    second one is strictly smaller (resp. larger). *)
Definition pymin (a b : float) : float := if flt b a then b else a.
Definition pymax (a b : float) : float := if fgt b a then b else a.

(** [float(n)] for an int: the nearest binary64 value, ties to even. *)
Definition float_of_Z (z : Z) : float :=
  SF2Prim (binary_normalize prec emax z 0 false).

(** [a / b] on two ints (true division); every divisor in the engines is
    at least 1. *)
Definition truediv (a b : Z) : float :=
  (float_of_Z a / float_of_Z b)%float.

(** Character classes of [str] on the code points 0..255. *)
Definition isspace (c : ascii) : bool :=
  let n := N_of_ascii c in
  (((9 <=? n) && (n <=? 13)) || ((28 <=? n) && (n <=? 32))
   || (n =? 133) || (n =? 160))%N.

Definition isupper (c : ascii) : bool :=
  let n := N_of_ascii c in
  (((65 <=? n) && (n <=? 90)) || ((192 <=? n) && (n <=? 214))
   || ((216 <=? n) && (n <=? 222)))%N.

Definition lower_char (c : ascii) : ascii :=
  if isupper c then ascii_of_N (N_of_ascii c + 32) else c.

(** [s.lower()] *)
Fixpoint lower (s : string) : string :=
  match s with
  | EmptyString => EmptyString
  | String c s' => String (lower_char c) (lower s')
  end.

(** [len(s)] *)
Definition len (s : string) : Z := Z.of_nat (String.length s).

(** [needle in hay] *)
Fixpoint contains (needle hay : string) : bool :=
  String.prefix needle hay ||
  match hay with
  | EmptyString => false
  | String _ hay' => contains needle hay'
  end.

(** [s.count(c)] for a one-character pattern. *)
Fixpoint count_char (c : ascii) (s : string) : Z :=
  match s with
  | EmptyString => 0
  | String d s' => (if Ascii.eqb c d then 1 else 0) + count_char c s'
  end.

(** [sum(1 for c in s if c.isupper())] *)
Fixpoint count_upper (s : string) : Z :=
  match s with
  | EmptyString => 0
  | String c s' => (if isupper c then 1 else 0) + count_upper s'
  end.

(** [s.split()]: the maximal runs of non-whitespace characters.  [cur] is
    the word being read. *)
Fixpoint split_go (cur : string) (s : string) : list string :=
  match s with
  | EmptyString => match cur with EmptyString => [] | _ => [cur] end
  | String c s' =>
      if isspace c
      then match cur with
           | EmptyString => split_go EmptyString s'
           | _ => cur :: split_go EmptyString s'
           end
      else split_go (cur +:+ String c EmptyString) s'
  end.

Definition split (s : string) : list string := split_go EmptyString s.

(** [sep.join(ws)] *)
Fixpoint join (sep : string) (ws : list string) : string :=
  match ws with
  | [] => EmptyString
  | [w] => w
  | w :: ws' => w +:+ sep +:+ join sep ws'
  end.

(** [s[:n]] for [0 <= n]. *)
Fixpoint slice_to (n : nat) (s : string) : string :=
  match n, s with
  | O, _ => EmptyString
  | S _, EmptyString => EmptyString
  | S n', String c s' => String c (slice_to n' s')
  end.

(** [s.rfind(c)] for a one-character pattern: the last index of [c], or
    [-1].  [rscan p i best s] scans [s], whose first character has index
    [i], and returns the last index whose character satisfies [p]. *)
Fixpoint rscan (p : ascii -> bool) (i best : Z) (s : string) : Z :=
  match s with
  | EmptyString => best
  | String c s' => rscan p (i + 1) (if p c then i else best) s'
  end.

Definition rfind (c : ascii) (s : string) : Z := rscan (Ascii.eqb c) 0 (-1) s.

(** [s.strip()] *)
Fixpoint lstrip (s : string) : string :=
  match s with
  | EmptyString => EmptyString
  | String c s' => if isspace c then lstrip s' else s
  end.

Fixpoint rstrip (s : string) : string :=
  match s with
  | EmptyString => EmptyString
  | String c s' =>
      match rstrip s' with
      | EmptyString => if isspace c then EmptyString else String c EmptyString
      | r => String c r
      end
  end.

Definition strip (s : string) : string := rstrip (lstrip s).

(** [l[-n:]]: the last [n] elements (the whole list when it is shorter). *)
Definition last_n {A} (n : nat) (l : list A) : list A :=
  drop (List.length l - n) l.

(** The pattern [if len(h) > cap: h = h[-keep:]] of the history buffers. *)
Definition trim {A} (cap keep : nat) (h : list A) : list A :=
  if (cap <? List.length h)%nat then last_n keep h else h.

(** The values a reply object of the language model can hold (what
    [json.loads] produces). *)
Inductive pyval :=
| VNone
| VBool (b : bool)
| VInt (z : Z)
| VFloat (f : float)
| VStr (s : string)
| VList (l : list pyval)
| VDict (d : gmap string pyval).

(** Truth value of an object, as tested by [if x:]. *)
Definition truthy (v : pyval) : bool :=
  match v with
  | VNone => false
  | VBool b => b
  | VInt z => negb (z =? 0)%Z
  | VFloat f => negb (PrimFloat.eqb f 0)
  | VStr s => negb (String.eqb s EmptyString)
  | VList l => negb (List.length l =? 0)%nat
  | VDict d => negb (size d =? 0)%nat
  end.

(** [float(v)]; [None] stands for a raised exception ([TypeError],
    [ValueError], or [OverflowError] for an int too large for a float).
    The conversion of a [str] is the one of the interpreter, a parameter
    of the development. *)
Definition py_float (float_of_str : string -> option float) (v : pyval)
    : option float :=
  match v with
  | VFloat f => Some f
  | VInt z =>
      let f := float_of_Z z in
      if PrimFloat.is_infinity f then None else Some f
  | VBool b => Some (if b then 1%float else 0%float)
  | VStr s => float_of_str s
  | VNone | VList _ | VDict _ => None
  end.

End Py.

Import Py.

(** ** engines/linguistic.py: the feature extractor *)

Module Linguistic.

Record ParsedMessage := {
  raw_message : string;
  msg_length : Z;                (* key 'length' *)
  word_count : Z;
  has_question : bool;
  exclamation_count : Z;
  uppercase_ratio : float;
  estimated_engagement : float
}.

Definition emotional_indicators : list string :=
  ["love"; "hate"; "amazing"; "terrible"; "excited"; "upset";
   "frustrated"; "happy"; "sad"].

Definition personal_indicators : list string :=
  ["i feel"; "i think"; "my"; "me"; "personally"].

(** The loop of lines 47-50: the first indicator found adds 0.1 and the
    loop is left. *)
Fixpoint emotional_loop (inds : list string) (message_lower : string)
    (engagement_score : float) : float :=
  match inds with
  | [] => engagement_score
  | indicator :: rest =>
      if contains indicator message_lower
      then (engagement_score + 0.1)%float
      else emotional_loop rest message_lower engagement_score
  end.

(** The loop of lines 54-56: every indicator is tested, and each one found
    adds 0.05. *)
Fixpoint personal_loop (inds : list string) (message_lower : string)
    (engagement_score : float) : float :=
  match inds with
  | [] => engagement_score
  | indicator :: rest =>
      personal_loop rest message_lower
        (if contains indicator message_lower
         then (engagement_score + 0.05)%float
         else engagement_score)
  end.

Definition parse_user_message (message : string) : ParsedMessage :=
  let length := len message in
  let word_count := Z.of_nat (List.length (split message)) in
  let has_question := contains "?" message in
  let exclamation_count := count_char "!" message in
  let uppercase_ratio := truediv (count_upper message) (Z.max 1 length) in
  let s0 := 0.5%float in
  let s1 :=
    if (15 <? word_count)%Z then (s0 + 0.25)%float
    else if (8 <? word_count)%Z then (s0 + 0.15)%float
    else if (word_count <? 2)%Z then (s0 - 0.4)%float
    else if (word_count <? 4)%Z then (s0 - 0.2)%float
    else s0 in
  let s2 := if has_question then (s1 + 0.2)%float else s1 in
  let s3 := if (0 <? exclamation_count)%Z then (s2 + 0.15)%float else s2 in
  let s4 := if (2 <? exclamation_count)%Z then (s3 + 0.1)%float else s3 in
  let s5 := if fgt uppercase_ratio 0.3 then (s4 + 0.15)%float else s4 in
  let message_lower := lower message in
  let s6 := emotional_loop emotional_indicators message_lower s5 in
  let s7 := personal_loop personal_indicators message_lower s6 in
  {| raw_message := message;
     msg_length := length;
     word_count := word_count;
     has_question := has_question;
     exclamation_count := exclamation_count;
     uppercase_ratio := uppercase_ratio;
     estimated_engagement := pymax 0.1 (pymin 0.9 s7) |}.

(** *** The response normaliser *)

(** What [process_llm_response] receives from a provider: a [str] or a
    [dict]. *)
Inductive raw_response :=
| RawText (s : string)
| RawObj (d : gmap string pyval).

(** Outcome of lines 102-110 on a [str]: the regular expression finds no
    brace-delimited part, or [json.loads] raises on the cleaned part, or
    it returns an object. *)
Inductive json_outcome :=
| NoJson
| JsonInvalid
| JsonObject (d : gmap string pyval).

Definition _create_fallback_response (raw_text : string)
    : gmap string pyval :=
  let words := split raw_text in
  let limited_text :=
    if (55 <? List.length words)%nat
    then join " " (take 50 words) +:+ "..."
    else strip raw_text in
  <["response_text" :=
      VStr (if negb (String.eqb limited_text EmptyString) then limited_text
            else "Let me think about that differently...")]>
  (<["engagement_analysis" := VFloat 0.6]>
  (<["boredom_detected" := VBool false]>
  (<["topic_shift_suggestion" := VStr ""]>
  (<["mood_assessment" := VStr "thoughtful"]>
  (<["initiative_taken" := VBool false]>
  (<["learning_feedback" :=
      VDict (<["response_quality" := VFloat 0.6]>
             (<["user_satisfaction_predicted" := VFloat 0.6]> ∅))]> ∅)))))).

Definition _create_error_response : gmap string pyval :=
  <["response_text" :=
      VStr "Something's not clicking for me right now. What's really on your mind?"]>
  (<["engagement_analysis" := VFloat 0.4]>
  (<["boredom_detected" := VBool true]>
  (<["topic_shift_suggestion" := VStr "try different approach"]>
  (<["mood_assessment" := VStr "confused"]>
  (<["initiative_taken" := VBool true]>
  (<["learning_feedback" :=
      VDict (<["response_quality" := VFloat 0.3]>
             (<["user_satisfaction_predicted" := VFloat 0.4]> ∅))]> ∅)))))).

Definition defaults : gmap string pyval :=
  <["response_text" := VStr "Tell me more about that."]>
  (<["engagement_analysis" := VFloat 0.5]>
  (<["boredom_detected" := VBool false]>
  (<["topic_shift_suggestion" := VStr ""]>
  (<["mood_assessment" := VStr "neutral"]>
  (<["initiative_taken" := VBool false]> ∅))))).

Definition _get_default_value (field : string) : pyval :=
  default VNone (defaults !! field).

(** Lines 123-133: the text that replaces a [response_text] of more than
    60 words.  The comparison of the integer [best_end] with a float is
    made on its float value, exact for an index of a string. *)
Definition truncate_words (words : list string) : string :=
  let truncated := join " " (take 55 words) in
  let last_period := rfind "." truncated in
  let last_question := rfind "?" truncated in
  let last_exclamation := rfind "!" truncated in
  let best_end := Z.max (Z.max last_period last_question) last_exclamation in
  if fgt (float_of_Z best_end) (float_of_Z (len truncated) * 0.8)
  then slice_to (Z.to_nat (best_end + 1)) truncated
  else truncated +:+ "...".

(** Lines 118-133.  [None] stands for a raised exception: a true value
    that is not a [str] has no [split]. *)
Definition enforce_word_limit (response_data : gmap string pyval)
    : option (gmap string pyval) :=
  let response_text := default (VStr "") (response_data !! "response_text") in
  if truthy response_text then
    match response_text with
    | VStr s =>
        let words := split s in
        if (60 <? List.length words)%nat
        then Some (<["response_text" := VStr (truncate_words words)]>
                     response_data)
        else Some response_data
    | _ => None
    end
  else Some response_data.

Definition required_fields : list string :=
  ["response_text"; "engagement_analysis"; "boredom_detected"].

(** Lines 138-139: one turn of the loop over the required fields. *)
Definition fill_field (response_data : gmap string pyval) (field : string)
    : gmap string pyval :=
  match response_data !! field with
  | Some _ => response_data
  | None => <[field := _get_default_value field]> response_data
  end.

(** Lines 137-139. *)
Definition fill_required (response_data : gmap string pyval)
    : gmap string pyval :=
  fold_left fill_field required_fields response_data.

(** Lines 146-150. *)
Definition ensure_learning_feedback (response_data : gmap string pyval)
    : gmap string pyval :=
  match response_data !! "learning_feedback" with
  | Some _ => response_data
  | None =>
      <["learning_feedback" :=
          VDict (<["response_quality" := VFloat 0.5]>
                 (<["user_satisfaction_predicted" := VFloat 0.5]> ∅))]>
        response_data
  end.

Section Normaliser.

(** [float(s)] on a [str] ([None]: [ValueError]) and the extraction of a
    JSON object from a [str] belong to the interpreter and its [re] and
    [json] modules. *)
Variable float_of_str : string -> option float.
Variable extract_json : string -> json_outcome.

(** Lines 142-143. *)
Definition clamp_engagement (response_data : gmap string pyval)
    : option (gmap string pyval) :=
  match response_data !! "engagement_analysis" with
  | Some v =>
      f ← py_float float_of_str v;
      Some (<["engagement_analysis" := VFloat (pymax 0.1 (pymin 0.9 f))]>
              response_data)
  | None => Some response_data
  end.

(** Lines 101-115. *)
Definition obtain_response_data (raw : raw_response)
    : option (gmap string pyval) :=
  match raw with
  | RawText s =>
      match extract_json s with
      | JsonObject d => Some d
      | JsonInvalid => None
      | NoJson => Some (_create_fallback_response s)
      end
  | RawObj d => Some d
  end.

(** The body of the [try] block. *)
Definition process_body (raw : raw_response) : option (gmap string pyval) :=
  d0 ← obtain_response_data raw;
  d1 ← enforce_word_limit d0;
  d2 ← clamp_engagement (fill_required d1);
  Some (ensure_learning_feedback d2).

Definition process_llm_response (raw : raw_response) : gmap string pyval :=
  match process_body raw with
  | Some response_data => response_data
  | None => _create_error_response
  end.

End Normaliser.

End Linguistic.

(** ** engines/emotional.py: the mood engine *)

Module Emotional.

Import Linguistic.

Record MoodState := {
  primary_emotion : string;
  energy_level : float;
  engagement_level : float;
  curiosity_level : float;
  last_updated : timestamp
}.

Record MoodHistoryEntry := {
  mh_timestamp : timestamp;
  mood_state : MoodState;
  trigger : option string;
  engagement_score : float;
  amplification_applied : bool
}.

Record TrendItem := {
  tr_timestamp : timestamp;
  engagement : float;
  feedback : float
}.

Record EmotionalEngine := {
  current_mood : MoodState;
  mood_history : list MoodHistoryEntry;
  engagement_trend : list TrendItem
}.

(** [__init__] *)
Definition init (now : timestamp) : EmotionalEngine :=
  {| current_mood :=
       {| primary_emotion := "neutral";
          energy_level := 0.5;
          engagement_level := 0.5;
          curiosity_level := 0.7;
          last_updated := now |};
     mood_history := [];
     engagement_trend := [] |}.

(** [self.emotion_triggers], in insertion order. *)
Definition emotion_triggers : list (string * list string) :=
  [ ("upset_keywords",
     ["upset"; "angry"; "frustrated"; "mad"; "annoyed"; "furious"; "pissed"]);
    ("sad_keywords",
     ["sad"; "depressed"; "down"; "crying"; "heartbroken"; "devastated"]);
    ("excited_keywords",
     ["excited"; "thrilled"; "amazing"; "awesome"; "fantastic"; "incredible"]);
    ("bored_keywords",
     ["boring"; "bored"; "tired"; "whatever"; "meh"; "uninteresting"]);
    ("confused_keywords",
     ["confused"; "lost"; "unclear"; "what"; "huh"; "understand"]);
    ("thoughtful_keywords",
     ["think"; "consider"; "reflect"; "ponder"; "contemplate"; "wonder"]);
    ("calm_keywords",
     ["peaceful"; "calm"; "relaxed"; "serene"; "quiet"; "still"]) ].

Record TriggerInfo := {
  trigger_detected : bool;
  primary_trigger : option string;
  intensity : float
}.

(** [keyword in [...]] on a list of strings. *)
Definition mem (k : string) (l : list string) : bool :=
  existsb (String.eqb k) l.

Definition keyword_intensity (keyword : string) : float :=
  if mem keyword ["furious"; "devastated"; "incredible"; "amazing"] then 0.9
  else if mem keyword ["think"; "consider"; "calm"; "peaceful"] then 0.4
  else 0.7.

(** The inner loop of [_detect_emotional_triggers]: the first keyword of
    the category that occurs in the text. *)
Fixpoint first_keyword (keywords : list string) (message_text : string)
    : option string :=
  match keywords with
  | [] => None
  | keyword :: rest =>
      if contains keyword message_text then Some keyword
      else first_keyword rest message_text
  end.

(** The outer loop: the first category one of whose keywords occurs. *)
Fixpoint detect_loop (triggers : list (string * list string))
    (message_text : string) : TriggerInfo :=
  match triggers with
  | [] => {| trigger_detected := false; primary_trigger := None;
             intensity := 0.0 |}
  | (emotion_type, keywords) :: rest =>
      match first_keyword keywords message_text with
      | Some keyword =>
          {| trigger_detected := true;
             primary_trigger := Some emotion_type;
             intensity := keyword_intensity keyword |}
      | None => detect_loop rest message_text
      end
  end.

Definition _detect_emotional_triggers (message_text : string) : TriggerInfo :=
  detect_loop emotion_triggers message_text.

Definition set_emotion (e : string) (m : MoodState) : MoodState :=
  {| primary_emotion := e; energy_level := energy_level m;
     engagement_level := engagement_level m;
     curiosity_level := curiosity_level m; last_updated := last_updated m |}.

Definition set_energy (x : float) (m : MoodState) : MoodState :=
  {| primary_emotion := primary_emotion m; energy_level := x;
     engagement_level := engagement_level m;
     curiosity_level := curiosity_level m; last_updated := last_updated m |}.

Definition set_engagement (x : float) (m : MoodState) : MoodState :=
  {| primary_emotion := primary_emotion m; energy_level := energy_level m;
     engagement_level := x;
     curiosity_level := curiosity_level m; last_updated := last_updated m |}.

Definition set_curiosity (x : float) (m : MoodState) : MoodState :=
  {| primary_emotion := primary_emotion m; energy_level := energy_level m;
     engagement_level := engagement_level m;
     curiosity_level := x; last_updated := last_updated m |}.

Definition set_last_updated (t : timestamp) (m : MoodState) : MoodState :=
  {| primary_emotion := primary_emotion m; energy_level := energy_level m;
     engagement_level := engagement_level m;
     curiosity_level := curiosity_level m; last_updated := t |}.

(** The branches of [_apply_emotional_shift], on the mood it mutates. *)
Definition shift_mood (trigger_type : string) (intensity : float)
    (m : MoodState) : MoodState :=
  if contains "upset" trigger_type then
    set_curiosity (pymin 0.9 (0.8 + intensity * 0.1))
      (set_energy (pymin 0.9 (0.7 + intensity * 0.2))
         (set_engagement (pymin 0.9 (0.8 + intensity * 0.1))
            (set_emotion "concerned" m)))
  else if contains "sad" trigger_type then
    set_energy (pymax 0.2 (0.4 - intensity * 0.1))
      (set_engagement (pymax 0.5 (0.7 - intensity * 0.1))
         (set_emotion "empathetic" m))
  else if contains "excited" trigger_type then
    set_energy (pymin 0.9 (0.8 + intensity * 0.1))
      (set_engagement (pymin 0.9 (0.8 + intensity * 0.1))
         (set_emotion "excited" m))
  else if contains "bored" trigger_type then
    set_energy (pymax 0.1 0.3)
      (set_engagement (pymax 0.1 0.2)
         (set_emotion "bored" m))
  else if contains "confused" trigger_type then
    set_curiosity (pymin 0.9 (0.8 + intensity * 0.1))
      (set_engagement (pymin 0.8 (0.7 + intensity * 0.1))
         (set_emotion "helpful" m))
  else if contains "thoughtful" trigger_type then
    set_curiosity (pymin 0.8 (0.7 + intensity * 0.1))
      (set_energy (pymax 0.2 (0.4 - intensity * 0.1))
         (set_engagement (pymin 0.7 (0.6 + intensity * 0.1))
            (set_emotion "contemplative" m)))
  else if contains "calm" trigger_type then
    set_curiosity (pymin 0.6 (0.5 + intensity * 0.1))
      (set_energy (pymax 0.2 0.3)
         (set_engagement (pymin 0.6 (0.5 + intensity * 0.1))
            (set_emotion "reflective" m)))
  else m.

(** [_apply_emotional_shift].  It is called with a detected trigger only,
    whose [primary_trigger] is a string. *)
Definition _apply_emotional_shift (emotional_impact : TriggerInfo)
    (m : MoodState) : MoodState :=
  match primary_trigger emotional_impact with
  | Some trigger_type => shift_mood trigger_type (intensity emotional_impact) m
  | None => m
  end.

(** Lines 43-51: blending towards the engagement of the message. *)
Definition blend_engagement (message_engagement : float) (m : MoodState)
    : MoodState :=
  let current_engagement := engagement_level m in
  let new_engagement :=
    (0.5 * current_engagement + 0.5 * message_engagement)%float in
  let change := (new_engagement - current_engagement)%float in
  let amplified_change := (change * 2.0)%float in
  let final_engagement :=
    pymax 0.1 (pymin 0.9 (current_engagement + amplified_change)) in
  set_engagement final_engagement m.

(** Lines 54-60. *)
Definition update_energy (message_engagement : float) (m : MoodState)
    : MoodState :=
  if fgt message_engagement 0.7 then
    set_energy (pymin 0.9 (energy_level m + 0.15)) m
  else if flt message_engagement 0.3 then
    set_energy (pymax 0.1 (energy_level m - 0.15)) m
  else if flt message_engagement 0.4 then
    set_energy (pymax 0.2 (energy_level m - 0.05)) m
  else m.

(** Lines 67-84: the band table on (engagement, energy). *)
Definition band_emotion (engagement energy : float) : string :=
  if fgt engagement 0.8 && fgt energy 0.7 then "excited"
  else if fgt engagement 0.7 && fgt energy 0.5 then "engaged"
  else if fgt engagement 0.6 && flt energy 0.4 then "contemplative"
  else if fgt engagement 0.5 && flt energy 0.3 then "reflective"
  else if fgt engagement 0.4 then "interested"
  else if fgt engagement 0.3 && flt energy 0.4 then "thoughtful"
  else if fgt engagement 0.2 then "neutral"
  else if flt energy 0.3 then "tired"
  else "bored".

(** Lines 87-91. *)
Definition update_curiosity (has_q : bool) (m : MoodState) : MoodState :=
  if has_q
  then set_curiosity (pymin 0.9 (curiosity_level m + 0.1)) m
  else set_curiosity (pymax 0.3 (curiosity_level m - 0.02)) m.

(** Lines 103-104. *)
Definition trim_mood_history (h : list MoodHistoryEntry)
    : list MoodHistoryEntry :=
  if (50 <? List.length h)%nat then last_n 25 h else h.

Definition update_mood_from_input (now : timestamp)
    (parsed_message : ParsedMessage) (self : EmotionalEngine)
    : EmotionalEngine :=
  let message_text := lower (raw_message parsed_message) in
  let message_engagement := estimated_engagement parsed_message in
  let emotional_impact := _detect_emotional_triggers message_text in
  let m1 :=
    if trigger_detected emotional_impact
    then _apply_emotional_shift emotional_impact (current_mood self)
    else blend_engagement message_engagement (current_mood self) in
  let m2 := update_energy message_engagement m1 in
  let m3 :=
    set_emotion (band_emotion (engagement_level m2) (energy_level m2)) m2 in
  let m4 := update_curiosity (has_question parsed_message) m3 in
  let entry :=
    {| mh_timestamp := now;
       mood_state := m4;
       trigger := primary_trigger emotional_impact;
       engagement_score := message_engagement;
       amplification_applied := trigger_detected emotional_impact |} in
  {| current_mood := set_last_updated now m4;
     mood_history := trim_mood_history (mood_history self ++ [entry]);
     engagement_trend := engagement_trend self |}.

Definition get_current_mood (self : EmotionalEngine) : MoodState :=
  current_mood self.

(** Lines 197-198. *)
Definition trim_trend (t : list TrendItem) : list TrendItem :=
  if (20 <? List.length t)%nat then last_n 10 t else t.

Definition learn_from_feedback (now : timestamp)
    (engagement_score feedback_score : float) (self : EmotionalEngine)
    : EmotionalEngine :=
  let trend :=
    trim_trend (engagement_trend self ++
                [{| tr_timestamp := now; engagement := engagement_score;
                    feedback := feedback_score |}]) in
  let m := current_mood self in
  let m' :=
    if fgt feedback_score 0.8 then
      set_energy (pymin 0.9 (energy_level m + 0.05)) m
    else if flt feedback_score 0.3 then
      if fgt (energy_level m) 0.7 then
        set_energy (energy_level m * 0.8) m
      else if flt (energy_level m) 0.3 then
        set_energy (pymin 0.6 (energy_level m * 1.2)) m
      else m
    else m in
  {| current_mood := m'; mood_history := mood_history self;
     engagement_trend := trend |}.

(** [sum(recent_scores)]: the additions from the integer 0, left to
    right (interpreters that add floats with a compensation term may
    differ in the last bit; nothing below depends on it). *)
Definition fsum (l : list float) : float :=
  fold_left (fun acc x => (acc + x)%float) l 0%float.

Definition detect_conversation_stagnation (self : EmotionalEngine) : bool :=
  if (List.length (engagement_trend self) <? 3)%nat then false
  else
    let recent_scores := map engagement (last_n 3 (engagement_trend self)) in
    let avg_recent :=
      (fsum recent_scores / float_of_Z (Z.of_nat (List.length recent_scores)))%float in
    if flt avg_recent 0.4 then true
    else
      let declining :=
        match recent_scores with
        | [s3; s2; s1] => flt s1 s2 && flt s2 s3
        | _ => false
        end in
      if (3 <=? List.length recent_scores)%nat && declining then true
      else if flt (engagement_level (current_mood self)) 0.3 then true
      else false.

(** The result of [should_take_dramatic_action]. *)
Record DramaticAction := {
  take_action : bool;
  triggers : list string;
  action_intensity : float
}.

(** Lines 255-258: the mean of the last three feedback scores is below
    0.4. *)
Definition poor_feedback (self : EmotionalEngine) : bool :=
  if (3 <=? List.length (engagement_trend self))%nat then
    let recent_feedback := map feedback (last_n 3 (engagement_trend self)) in
    flt (fsum recent_feedback /
         float_of_Z (Z.of_nat (List.length recent_feedback))) 0.4
  else false.

Definition should_take_dramatic_action (self : EmotionalEngine)
    : DramaticAction :=
  let t1 :=
    if detect_conversation_stagnation self
    then ["STAGNATION_DETECTED"] else [] in
  let t2 :=
    if flt (energy_level (current_mood self)) 0.2
    then t1 ++ ["VERY_LOW_ENERGY"] else t1 in
  let t3 :=
    if mem (primary_emotion (current_mood self)) ["bored"; "tired"]
    then t2 ++ ["NEGATIVE_EMOTION"] else t2 in
  let t4 := if poor_feedback self then t3 ++ ["POOR_FEEDBACK"] else t3 in
  {| take_action := (2 <=? List.length t4)%nat;
     triggers := t4;
     action_intensity :=
       pymin 0.8 (float_of_Z (Z.of_nat (List.length t4)) * 0.25) |}.

(** An element of [recent_trend]. *)
Record TrendView := {
  tv_emotion : string;            (* key 'emotion' *)
  tv_engagement : float;          (* key 'engagement' *)
  tv_energy : float;              (* key 'energy' *)
  trigger_applied : bool
}.

(** The result of [get_emotional_context_for_llm]; the keys that repeat
    those of the mood carry the prefix [ctx_]. *)
Record EmotionalContext := {
  current_emotion : string;
  ctx_energy_level : float;
  ctx_engagement_level : float;
  ctx_curiosity_level : float;
  recent_trend : list TrendView;
  stagnation_detected : bool;
  dramatic_action_needed : bool;
  action_triggers : list string;
  ctx_action_intensity : float
}.

Definition get_emotional_context_for_llm (self : EmotionalEngine)
    : EmotionalContext :=
  let recent_mood_trend :=
    if (3 <=? List.length (mood_history self))%nat then
      map (fun entry =>
             {| tv_emotion := primary_emotion (mood_state entry);
                tv_engagement := engagement_level (mood_state entry);
                tv_energy := energy_level (mood_state entry);
                trigger_applied := amplification_applied entry |})
          (last_n 3 (mood_history self))
    else [] in
  let dramatic_action := should_take_dramatic_action self in
  {| current_emotion := primary_emotion (current_mood self);
     ctx_energy_level := energy_level (current_mood self);
     ctx_engagement_level := engagement_level (current_mood self);
     ctx_curiosity_level := curiosity_level (current_mood self);
     recent_trend := recent_mood_trend;
     stagnation_detected := detect_conversation_stagnation self;
     dramatic_action_needed := take_action dramatic_action;
     action_triggers := triggers dramatic_action;
     ctx_action_intensity := action_intensity dramatic_action |}.

End Emotional.

(** ** engines/behavioral.py: the behaviour engine *)

Module Behavioral.

Record BehavioralParams := {
  initiative_threshold : float;
  topic_change_frequency : Z;
  curiosity_drive : float;
  empathy_response : float;
  boredom_tolerance : float
}.

Record InitiativeRecord := {
  ir_timestamp : timestamp;
  initiative_taken : bool;
  engagement_result : float;
  success : bool;
  strong_success : bool
}.

Record TopicPerformance := {
  messages : Z;
  duration_minutes : float;
  last_used : timestamp;
  engagement_per_message : float;
  success_score : float
}.

Record BehavioralEngine := {
  conversation_topics : list string;
  topic_performance : gmap string TopicPerformance;
  initiative_history : list InitiativeRecord;
  current_topic : option string;
  topic_start_time : timestamp;
  messages_on_topic : Z;
  behavioral_params : BehavioralParams
}.

(** [__init__] *)
Definition init (now : timestamp) : BehavioralEngine :=
  {| conversation_topics := [];
     topic_performance := ∅;
     initiative_history := [];
     current_topic := None;
     topic_start_time := now;
     messages_on_topic := 0;
     behavioral_params :=
       {| initiative_threshold := 0.35;
          topic_change_frequency := 4;
          curiosity_drive := 0.7;
          empathy_response := 0.6;
          boredom_tolerance := 0.4 |} |}.

Definition set_initiative_threshold (x : float) (p : BehavioralParams)
    : BehavioralParams :=
  {| initiative_threshold := x;
     topic_change_frequency := topic_change_frequency p;
     curiosity_drive := curiosity_drive p;
     empathy_response := empathy_response p;
     boredom_tolerance := boredom_tolerance p |}.

(** Lines 263-264. *)
Definition trim_initiative_history (h : list InitiativeRecord)
    : list InitiativeRecord :=
  if (20 <? List.length h)%nat then last_n 10 h else h.

(** Line 268. *)
Definition recent_initiatives (h : list InitiativeRecord)
    : list InitiativeRecord :=
  List.filter initiative_taken (last_n 5 h).

(** Line 271; the list is not empty where the engine computes it. *)
Definition success_rate (recent : list InitiativeRecord) : float :=
  truediv (Z.of_nat (List.length (List.filter success recent)))
          (Z.of_nat (List.length recent)).

(** Lines 267-281. *)
Definition adapt_threshold (h : list InitiativeRecord) (p : BehavioralParams)
    : BehavioralParams :=
  if (4 <=? List.length h)%nat then
    match recent_initiatives h with
    | [] => p
    | recent =>
        let rate := success_rate recent in
        if fgt rate 0.8 then
          set_initiative_threshold
            (pymin 0.6 (initiative_threshold p + 0.05)) p
        else if flt rate 0.3 then
          set_initiative_threshold
            (pymax 0.2 (initiative_threshold p - 0.05)) p
        else p
    end
  else p.

Definition learn_from_outcome (now : timestamp) (taken : bool)
    (result : float) (self : BehavioralEngine) : BehavioralEngine :=
  let record :=
    {| ir_timestamp := now;
       initiative_taken := taken;
       engagement_result := result;
       success := fgt result 0.6;
       strong_success := fgt result 0.8 |} in
  let history := trim_initiative_history (initiative_history self ++ [record]) in
  {| conversation_topics := conversation_topics self;
     topic_performance := topic_performance self;
     initiative_history := history;
     current_topic := current_topic self;
     topic_start_time := topic_start_time self;
     messages_on_topic := messages_on_topic self;
     behavioral_params := adapt_threshold history (behavioral_params self) |}.

(** [(now - start).seconds]: the seconds of the normalised difference,
    between 0 and 86399. *)
Definition timedelta_seconds (now start : timestamp) : Z :=
  (((now - start) mod 86400000000) / 1000000)%Z.

Definition two_digits (n : Z) : string :=
  String (ascii_of_N (Z.to_N (48 + n / 10)))
    (String (ascii_of_N (Z.to_N (48 + n mod 10))) EmptyString).

(** [now.strftime('%H%M%S')] *)
Definition strftime_HMS (now : timestamp) : string :=
  let secs := (now / 1000000)%Z in
  two_digits ((secs / 3600) mod 24) +:+ two_digits ((secs / 60) mod 60)
    +:+ two_digits (secs mod 60).

(** A [str] or [None] tested by [if x:] or [x or ...]. *)
Definition nonempty (o : option string) : option string :=
  match o with
  | Some s => if String.eqb s EmptyString then None else Some s
  | None => None
  end.

(** [update_topic_tracking].  In [success_score] and in the divisor of
    [engagement_per_message] the integers 0 and 1 that [max] and [min] may
    return are written as the floats equal to them. *)
Definition update_topic_tracking (now : timestamp) (new_topic_detected : bool)
    (topic_name : option string) (self : BehavioralEngine)
    : BehavioralEngine :=
  if new_topic_detected then
    let performance :=
      match nonempty (current_topic self) with
      | Some topic =>
          let duration := truediv (timedelta_seconds now (topic_start_time self)) 60 in
          <[topic :=
              {| messages := messages_on_topic self;
                 duration_minutes := duration;
                 last_used := now;
                 engagement_per_message :=
                   (float_of_Z (messages_on_topic self) / pymax 1 duration)%float;
                 success_score :=
                   pymax 0 (pymin 1 (truediv (messages_on_topic self - 2) 5)) |}]>
            (topic_performance self)
      | None => topic_performance self
      end in
    {| conversation_topics := conversation_topics self;
       topic_performance := performance;
       initiative_history := initiative_history self;
       current_topic :=
         Some (match nonempty topic_name with
               | Some name => name
               | None => "topic_" +:+ strftime_HMS now
               end);
       topic_start_time := now;
       messages_on_topic := 0;
       behavioral_params := behavioral_params self |}
  else self.

(** An element of [recent_messages]: the engine reads its keys [role]
    and [content], here two texts. *)
Record Message := {
  role : string;
  content : string
}.

(** [len(content.split())] *)
Definition words_of (msg : Message) : Z :=
  Z.of_nat (List.length (split (content msg))).

(** [sum] of a list of ints. *)
Definition zsum (l : list Z) : Z := fold_left Z.add l 0%Z.

(** Lines 88-100: the term of the boredom score that comes from the
    lengths of the last three messages. *)
Definition length_boredom (recent_messages : list Message)
    (boredom_score : float) : float :=
  match recent_messages with
  | [] => boredom_score
  | _ =>
      let recent_lengths :=
        map words_of
          (List.filter (fun msg => negb (String.eqb (content msg) EmptyString))
             (last_n 3 recent_messages)) in
      match recent_lengths with
      | [] => boredom_score
      | _ =>
          let avg_length :=
            truediv (zsum recent_lengths)
                    (Z.of_nat (List.length recent_lengths)) in
          if flt avg_length 4 then (boredom_score + 0.2)%float
          else if flt avg_length 6 then (boredom_score + 0.1)%float
          else boredom_score
      end
  end.

Definition _calculate_boredom_level (self : BehavioralEngine)
    (emotional_state : Emotional.MoodState) (recent_messages : list Message)
    : float :=
  let s0 := 0.0%float in
  let engagement := Emotional.engagement_level emotional_state in
  let s1 :=
    if flt engagement 0.4 then (s0 + 0.3)%float
    else if flt engagement 0.6 then (s0 + 0.1)%float
    else s0 in
  let energy := Emotional.energy_level emotional_state in
  let s2 := if flt energy 0.3 then (s1 + 0.2)%float else s1 in
  let s3 := length_boredom recent_messages s2 in
  let frequency := topic_change_frequency (behavioral_params self) in
  let s4 :=
    if (frequency <? messages_on_topic self)%Z then
      let excess := (messages_on_topic self - frequency)%Z in
      (s3 + pymin 0.3 (float_of_Z excess * 0.1))%float
    else s3 in
  let s5 :=
    if Emotional.mem (Emotional.primary_emotion emotional_state)
         ["bored"; "tired"]
    then (s4 + 0.2)%float else s4 in
  pymin 1.0 s5.

(** The result of [_analyze_initiative_needs]; the keys [type] and
    [triggers] are the fields [initiative_kind] and [fired]. *)
Record InitiativeAnalysis := {
  needed : bool;
  initiative_kind : string;
  intensity : float;
  score : float;
  fired : list string
}.

(** [_analyze_initiative_needs]; [draw] is the value of
    [random.random()].  The integer 0 of the last branch is the float
    equal to it. *)
Definition _analyze_initiative_needs (self : BehavioralEngine)
    (draw : float) (boredom_level engagement : float) (topic_persistence : Z)
    (emotional_state : Emotional.MoodState) : InitiativeAnalysis :=
  let p := behavioral_params self in
  let '(s1, t1) :=
    if fgt boredom_level 0.5 then ((0.0 + 0.3)%float, ["MODERATE_BOREDOM"])
    else if fgt boredom_level 0.3 then ((0.0 + 0.15)%float, ["MILD_BOREDOM"])
    else (0.0%float, []) in
  let '(s2, t2) :=
    if flt engagement (initiative_threshold p)
    then ((s1 + 0.25)%float, t1 ++ ["LOW_ENGAGEMENT"])
    else (s1, t1) in
  let '(s3, t3) :=
    if fgt (float_of_Z topic_persistence)
           (float_of_Z (topic_change_frequency p) * 1.5)
    then ((s2 + 0.25)%float, t2 ++ ["TOPIC_FATIGUE"])
    else if (topic_change_frequency p <? topic_persistence)%Z
    then ((s2 + 0.1)%float, t2 ++ ["TOPIC_AGING"])
    else (s2, t2) in
  let primary_emotion := Emotional.primary_emotion emotional_state in
  let '(s4, t4) :=
    if Emotional.mem primary_emotion ["bored"; "tired"]
    then ((s3 + 0.3)%float, t3 ++ ["NEGATIVE_EMOTION"])
    else if Emotional.mem primary_emotion ["contemplative"; "reflective"]
    then ((s3 + 0.1)%float, t3 ++ ["THOUGHTFUL_MOMENT"])
    else if String.eqb primary_emotion "neutral" && flt engagement 0.5
    then ((s3 + 0.15)%float, t3 ++ ["EMOTIONAL_FLATNESS"])
    else (s3, t3) in
  let '(initiative_score, all_triggers) :=
    if flt draw (curiosity_drive p * 0.1)
    then ((s4 + 0.15)%float, t4 ++ ["SPONTANEOUS_CURIOSITY"])
    else (s4, t4) in
  let '(initiative_type, intensity) :=
    if PrimFloat.leb 0.5 initiative_score
    then ("strong", pymin 0.8 initiative_score)
    else if PrimFloat.leb 0.25 initiative_score
    then ("moderate", initiative_score)
    else if fgt initiative_score 0.05
    then ("gentle", initiative_score)
    else ("none", 0%float) in
  {| needed := fgt initiative_score 0.05;
     initiative_kind := initiative_type;
     intensity := intensity;
     score := initiative_score;
     fired := all_triggers |}.

(** [max(lengths) - min(lengths)] on the three lengths. *)
Definition spread3 (a b c : Z) : Z :=
  (Z.max (Z.max a b) c - Z.min (Z.min a b) c)%Z.

Definition _detect_repetitive_pattern (recent_messages : list Message)
    : bool :=
  if (List.length recent_messages <? 4)%nat then false
  else
    let ai_messages :=
      List.filter (fun msg => String.eqb (role msg) "assistant")
        recent_messages in
    if (3 <=? List.length ai_messages)%nat then
      match map words_of (last_n 3 ai_messages) with
      | [a; b; c] => (spread3 a b c <? 5)%Z
      | _ => false
      end
    else false.

Definition _determine_behavioral_mode (emotional_state : Emotional.MoodState)
    : string :=
  let emotion := Emotional.primary_emotion emotional_state in
  let energy := Emotional.energy_level emotional_state in
  let engagement := Emotional.engagement_level emotional_state in
  if Emotional.mem emotion ["contemplative"; "reflective"; "thoughtful"]
  then "contemplative"
  else if Emotional.mem emotion ["tired"] || flt energy 0.3
  then "low_energy"
  else if Emotional.mem emotion ["excited"] && fgt energy 0.7
  then "energetic"
  else if fgt engagement 0.7 then "engaged"
  else if flt engagement 0.3 then "disengaged"
  else "balanced".

(** The result of [analyze_conversation_state]. *)
Record BehaviorSnapshot := {
  avg_engagement : float;
  boredom_level : float;
  topic_persistence : Z;
  time_since_change : float;
  initiative_recommended : bool;
  initiative_type : string;
  initiative_intensity : float;
  conversation_energy : float;
  pattern_break_needed : bool;
  behavioral_mode : string
}.

(** [analyze_conversation_state]: the snapshot it returns and the engine
    it leaves. *)
Definition analyze_conversation_state (now : timestamp) (draw : float)
    (recent_messages : list Message) (emotional_state : Emotional.MoodState)
    (self : BehavioralEngine) : BehaviorSnapshot * BehavioralEngine :=
  let self1 :=
    match recent_messages with
    | [] => self
    | _ =>
        {| conversation_topics := conversation_topics self;
           topic_performance := topic_performance self;
           initiative_history := initiative_history self;
           current_topic := current_topic self;
           topic_start_time := topic_start_time self;
           messages_on_topic := messages_on_topic self + 1;
           behavioral_params := behavioral_params self |}
    end in
  let avg_engagement := Emotional.engagement_level emotional_state in
  let boredom_level :=
    _calculate_boredom_level self1 emotional_state recent_messages in
  let topic_persistence := messages_on_topic self1 in
  let time_on_topic :=
    truediv (timedelta_seconds now (topic_start_time self1)) 60 in
  let initiative_analysis :=
    _analyze_initiative_needs self1 draw boredom_level avg_engagement
      topic_persistence emotional_state in
  ({| avg_engagement := avg_engagement;
      boredom_level := boredom_level;
      topic_persistence := topic_persistence;
      time_since_change := time_on_topic;
      initiative_recommended := needed initiative_analysis;
      initiative_type := initiative_kind initiative_analysis;
      initiative_intensity := intensity initiative_analysis;
      conversation_energy := Emotional.energy_level emotional_state;
      pattern_break_needed := _detect_repetitive_pattern recent_messages;
      behavioral_mode := _determine_behavioral_mode emotional_state |},
   self1).

(** The keys that [get_initiative_guidance] reads from its context; an
    absent key is [None]. *)
Record GuidanceContext := {
  gc_initiative_type : option string;
  gc_behavioral_mode : option string;
  gc_initiative_triggers : option (list string);
  gc_pattern_break_needed : option bool
}.

Definition get_initiative_guidance (context : GuidanceContext)
    : list string :=
  let initiative_type := default "none" (gc_initiative_type context) in
  let behavioral_mode := default "balanced" (gc_behavioral_mode context) in
  let triggers := default [] (gc_initiative_triggers context) in
  let g1 :=
    if String.eqb behavioral_mode "contemplative" then ["MOOD_CONTEMPLATIVE"]
    else if String.eqb behavioral_mode "low_energy" then ["MOOD_LOW_ENERGY"]
    else if String.eqb behavioral_mode "energetic" then ["MOOD_ENERGETIC"]
    else if String.eqb behavioral_mode "disengaged" then ["ENGAGEMENT_LOW"]
    else [] in
  let g2 :=
    if String.eqb initiative_type "strong" then g1 ++ ["TAKE_INITIATIVE"]
    else if String.eqb initiative_type "moderate" then g1 ++ ["SHOW_INTEREST"]
    else if String.eqb initiative_type "gentle" then g1 ++ ["BE_CURIOUS"]
    else g1 in
  let g3 :=
    if Emotional.mem "TOPIC_FATIGUE" triggers then g2 ++ ["TOPIC_STALE"]
    else g2 in
  let g4 :=
    if Emotional.mem "MODERATE_BOREDOM" triggers
    then g3 ++ ["CONVERSATION_STAGNANT"] else g3 in
  if default false (gc_pattern_break_needed context)
  then g4 ++ ["BREAK_PATTERN"] else g4.


(** The keys that [suggest_conversation_actions] reads. *)
Record ActionContext := {
  ac_boredom_level : option float;
  ac_avg_engagement : option float;
  ac_behavioral_mode : option string
}.

(** [suggest_conversation_actions]; the default 0 of [boredom_level] is
    the float equal to it. *)
Definition suggest_conversation_actions (context : ActionContext)
    : list string :=
  let boredom_level := default 0%float (ac_boredom_level context) in
  let engagement := default 0.5%float (ac_avg_engagement context) in
  let behavioral_mode := default "balanced" (ac_behavioral_mode context) in
  let a1 :=
    if String.eqb behavioral_mode "contemplative"
    then ["thoughtful_question"; "deeper_exploration"]
    else if String.eqb behavioral_mode "low_energy"
    then ["gentle_nudge"; "quiet_interest"]
    else if String.eqb behavioral_mode "energetic"
    then ["enthusiastic_response"; "dynamic_question"]
    else [] in
  if fgt boredom_level 0.5
  then a1 ++ ["refresh_conversation"; "new_perspective"]
  else if flt engagement 0.3
  then a1 ++ ["spark_interest"; "find_connection"]
  else a1.

Definition _get_recent_success_rate (self : BehavioralEngine) : float :=
  if (List.length (initiative_history self) <? 2)%nat then 0.5%float
  else
    match recent_initiatives (initiative_history self) with
    | [] => 0.5%float
    | recent => success_rate recent
    end.

(** The result of [get_behavioral_context]; the keys that repeat fields
    of the engine carry the prefix [bc_]. *)
Record BehavioralContext := {
  bc_current_topic : option string;
  bc_messages_on_topic : Z;
  time_on_topic_minutes : float;
  bc_initiative_threshold : float;
  recent_initiative_success : float;
  bc_curiosity_drive : float;
  bc_boredom_tolerance : float;
  topic_change_readiness : float
}.

(** [get_behavioral_context]; [None] stands for the [ZeroDivisionError]
    of a topic change frequency of 0. *)
Definition get_behavioral_context (now : timestamp) (self : BehavioralEngine)
    : option BehavioralContext :=
  let recent_success_rate := _get_recent_success_rate self in
  let p := behavioral_params self in
  if (topic_change_frequency p =? 0)%Z then None
  else
    Some
      {| bc_current_topic := current_topic self;
         bc_messages_on_topic := messages_on_topic self;
         time_on_topic_minutes :=
           truediv (timedelta_seconds now (topic_start_time self)) 60;
         bc_initiative_threshold := initiative_threshold p;
         recent_initiative_success := recent_success_rate;
         bc_curiosity_drive := curiosity_drive p;
         bc_boredom_tolerance := boredom_tolerance p;
         topic_change_readiness :=
           pymin 1.0
             (truediv (messages_on_topic self) (topic_change_frequency p)) |}.

End Behavioral.

(** ** main.py: the comparison of the raw and the final reply *)

Module Orchestrator.

(** The result of [_calculate_pure_response_difference]. *)
Record DifferenceMetrics := {
  length_difference : Z;
  length_ratio : float;
  word_similarity : float;
  significant_change : bool;
  natural_variety : float
}.

(** [set(text.lower().split())] *)
Definition word_set (text : string) : gset string :=
  list_to_set (split (lower text)).

Definition repetitive_patterns : list string :=
  ["wait"; "hold on"; "hold up"; "you know what"].

(** [a if c else b] on floats, for the terms of the variety score. *)
Definition add_if (c : bool) (x : float) (acc : float) : float :=
  if c then (acc + x)%float else acc.

(** [_calculate_pure_response_difference] on two texts, for which
    [str(x)] is [x]: the orchestrator passes it the raw text of the
    provider and the [response_text] of the normalised reply.  The
    integers 0 that the code returns for an absent ratio or similarity
    are the floats equal to them, and the variety score starts from the
    float 0. *)
Definition _calculate_pure_response_difference (raw_response : string)
    (final_response : string) : DifferenceMetrics :=
  let raw_len := len raw_response in
  let final_len := len final_response in
  let raw_words := word_set raw_response in
  let final_words := word_set final_response in
  let similarity :=
    if negb (size raw_words =? 0)%nat && negb (size final_words =? 0)%nat
    then
      let overlap := Z.of_nat (size (raw_words ∩ final_words)) in
      let union := Z.of_nat (size (raw_words ∪ final_words)) in
      if (0 <? union)%Z then truediv overlap union else 0%float
    else 0%float in
  let final_lower := lower final_response in
  let pattern_found :=
    existsb (fun pattern => contains pattern final_lower)
      repetitive_patterns in
  let v1 := add_if (negb pattern_found) 0.5 0 in
  let words := split final_lower in
  let v2 :=
    match words with
    | [] => v1
    | _ =>
        let unique_ratio :=
          truediv (Z.of_nat (size (list_to_set words : gset string)))
                  (Z.of_nat (List.length words)) in
        (v1 + unique_ratio * 0.3)%float
    end in
  let v3 :=
    add_if
      (negb (String.prefix "wait" final_lower ||
             String.prefix "hold" final_lower ||
             String.prefix "you know" final_lower))
      0.2 v2 in
  {| length_difference := (final_len - raw_len)%Z;
     length_ratio :=
       if (0 <? raw_len)%Z then truediv final_len raw_len else 0%float;
     word_similarity := similarity;
     significant_change := flt similarity 0.5;
     natural_variety := pymin 1.0 v3 |}.

End Orchestrator.

(** ** Runs of the engines and the values used in the statements *)

Module Runs.

Local Open Scope Z_scope.

(** A call of [learn_from_outcome]: the clock, [initiative_taken] and
    [engagement_result]. *)
Definition outcome_call : Type := timestamp * bool * float.

Definition do_outcome (self : Behavioral.BehavioralEngine) (c : outcome_call)
    : Behavioral.BehavioralEngine :=
  let '(now, taken, result) := c in
  Behavioral.learn_from_outcome now taken result self.

(** The behaviour engine after a sequence of [learn_from_outcome] calls on
    a fresh engine. *)
Definition run_outcomes (now0 : timestamp) (calls : list outcome_call)
    : Behavioral.BehavioralEngine :=
  fold_left do_outcome calls (Behavioral.init now0).

(** The values [initiative_threshold] takes: 0.35 and what the two
    adjustments of [adapt_threshold] make of it. *)
Definition thresholds : list float :=
  [0.2; 0.25; 0.3; 0.35; 0.39999999999999997; 0.44999999999999996;
   0.49999999999999994; 0.5499999999999999; 0.6]%float.

(** Number of attempts of a list whose [engagement_result] exceeds 0.6. *)
Definition successes (l : list Behavioral.InitiativeRecord) : nat :=
  List.length
    (List.filter (fun r => fgt (Behavioral.engagement_result r) 0.6) l).

(** Four attempts, three of them successful, and four successful ones. *)
Definition four_calls : list outcome_call :=
  [(1%Z, true, 0.9%float); (2%Z, true, 0.5%float); (3%Z, true, 0.7%float);
   (4%Z, true, 0.95%float)].

Definition four_successes : list outcome_call :=
  [(1%Z, true, 0.9%float); (2%Z, true, 0.65%float); (3%Z, true, 0.7%float);
   (4%Z, true, 0.95%float)].

(** An operation on the mood engine. *)
Inductive mood_op :=
| OpUpdate (now : timestamp) (parsed_message : Linguistic.ParsedMessage)
| OpFeedback (now : timestamp) (engagement_score feedback_score : float).

Definition do_mood_op (self : Emotional.EmotionalEngine) (op : mood_op)
    : Emotional.EmotionalEngine :=
  match op with
  | OpUpdate now parsed_message =>
      Emotional.update_mood_from_input now parsed_message self
  | OpFeedback now engagement_score feedback_score =>
      Emotional.learn_from_feedback now engagement_score feedback_score self
  end.

(** The mood engine after a sequence of operations on a fresh engine. *)
Definition run_mood (now0 : timestamp) (ops : list mood_op)
    : Emotional.EmotionalEngine :=
  fold_left do_mood_op ops (Emotional.init now0).

(** The mean of a list of samples, as the engine computes it. *)
Definition mean (l : list float) : float :=
  (Emotional.fsum l / float_of_Z (Z.of_nat (List.length l)))%float.

(** The mood engine after the message of the scenario, on a fresh engine. *)
Definition after_boring : Emotional.EmotionalEngine :=
  Emotional.update_mood_from_input 1
    (Linguistic.parse_user_message "whatever, this is boring")
    (Emotional.init 0).

(** Three feedback samples with rising engagement, after the message. *)
Definition after_boring_and_feedback : Emotional.EmotionalEngine :=
  fold_left do_mood_op
    [OpFeedback 2 0.5 0.5; OpFeedback 3 0.6 0.5; OpFeedback 4 0.7 0.5]
    after_boring.

(** Every recorded attempt carries [success] as computed from its
    [engagement_result]. *)
Definition record_ok (r : Behavioral.InitiativeRecord) : Prop :=
  Behavioral.success r = fgt (Behavioral.engagement_result r) 0.6.

End Runs.

(** ** The normaliser in the words of the specification *)

Module NormaliserSpec.

Import Linguistic.

(** A sentence ends with a period, a question mark or an exclamation
    mark. *)
Definition sentence_end (c : ascii) : bool :=
  Ascii.eqb "." c || Ascii.eqb "?" c || Ascii.eqb "!" c.

(** Index of the last sentence-ending punctuation of a text, [-1] when it
    has none. *)
Definition last_sentence_end (t : string) : Z := rscan sentence_end 0 (-1) t.

(** A truncated text is cut after its last sentence end when that lies in
    its last 20%, and gets an ellipsis otherwise. *)
Definition cut_at_sentence (t : string) : string :=
  let b := last_sentence_end t in
  if fgt (float_of_Z b) (float_of_Z (len t) * 0.8)
  then slice_to (Z.to_nat (b + 1)) t
  else t +:+ "...".

(** The text the normaliser is to return for a text [s]. *)
Definition limited_text (s : string) : string :=
  let words := split s in
  if (60 <? List.length words)%nat
  then cut_at_sentence (join " " (take 55 words))
  else s.

(** The [engagement_analysis] of a reply, when it has one, converts to a
    float. *)
Definition engagement_converts (float_of_str : string -> option float)
    (d : gmap string pyval) : bool :=
  match d !! "engagement_analysis" with
  | Some v =>
      match py_float float_of_str v with Some _ => true | None => false end
  | None => true
  end.

(** Number of words of a text; [inword] tells whether a word is being
    read. *)
Fixpoint wc_go (inword : bool) (s : string) : nat :=
  match s with
  | EmptyString => if inword then 1 else 0
  | String c s' =>
      if isspace c
      then (if inword then 1 else 0) + wc_go false s'
      else wc_go true s'
  end.

Definition nonempty_str (s : string) : bool :=
  match s with EmptyString => false | String _ _ => true end.

(** A text without whitespace. *)
Fixpoint nospace (s : string) : bool :=
  match s with
  | EmptyString => true
  | String c s' => negb (isspace c) && nospace s'
  end.

Definition is_word (w : string) : Prop :=
  nonempty_str w = true /\ nospace w = true.

(** A value of [response_text] that the word limit leaves alone: a false
    value, or a text of at most 60 words. *)
Definition ok_text (v : pyval) : Prop :=
  truthy v = false \/
  exists s, v = VStr s /\ (List.length (split s) <= 60)%nat.

(** A reply object on which the normaliser has nothing left to do. *)
Definition normalized (d : gmap string pyval) : Prop :=
  (exists v, d !! "response_text" = Some v /\ ok_text v) /\
  (exists f, d !! "engagement_analysis" = Some (VFloat f) /\
     pymax 0.1 (pymin 0.9 f) = f) /\
  is_Some (d !! "boredom_detected") /\
  is_Some (d !! "learning_feedback").

(** The reply that the last steps build from the reply [d1] left by the
    word limit and the float [f] of its [engagement_analysis]. *)
Definition finish (d1 : gmap string pyval) (f : float) : gmap string pyval :=
  ensure_learning_feedback
    (<["engagement_analysis" := VFloat (pymax 0.1 (pymin 0.9 f))]>
       (fill_required d1)).

(** A text of 70 words without punctuation. *)
Definition seventy_words : string := join " " (repeat "word" 70).

Definition reply_seventy_words : gmap string pyval :=
  <["response_text" := VStr seventy_words]>
  (<["engagement_analysis" := VFloat 0.7]> ∅).

(** A short reply in order. *)
Definition reply_short : gmap string pyval :=
  <["response_text" := VStr "Hello there"]>
  (<["engagement_analysis" := VInt 1]> ∅).

(** A reply of two words whose [engagement_analysis] is [null]. *)
Definition reply_null_engagement : gmap string pyval :=
  <["response_text" := VStr "Hello there"]>
  (<["engagement_analysis" := VNone]> ∅).

(** A message with two personal-sharing keywords, "me" and "my". *)
Definition message_me_my : string := "tell me about my day".

End NormaliserSpec.

(** ** Further notions used in the statements *)

Module Notions.

Import Linguistic.

Definition is_some {A} (o : option A) : bool :=
  match o with Some _ => true | None => false end.

Definition is_nil {A} (l : list A) : bool :=
  match l with [] => true | _ => false end.

(** A float of the closed interval from [lo] to [hi]. *)
Definition in_range (lo hi x : float) : Prop :=
  PrimFloat.leb lo x = true /\ PrimFloat.leb x hi = true.

(** The [response_text] of a reply is a true value without [split]: a
    number, [True], a non-empty list or object. *)
Definition text_unsplittable (d : gmap string pyval) : bool :=
  match d !! "response_text" with
  | Some (VStr _) => false
  | Some v => truthy v
  | None => false
  end.

(** The keys that the normaliser may write. *)
Definition normaliser_keys : list string :=
  ["response_text"; "engagement_analysis"; "boredom_detected";
   "learning_feedback"].

(** A category one of whose keywords occurs in a text. *)
Definition category_matches (message_text : string)
    (category : string * list string) : bool :=
  existsb (fun keyword => contains keyword message_text) (snd category).

(** The tags of [should_take_dramatic_action], in the order in which it
    tests them. *)
Definition dramatic_tags : list string :=
  ["STAGNATION_DETECTED"; "VERY_LOW_ENERGY"; "NEGATIVE_EMOTION";
   "POOR_FEEDBACK"].

(** The tags of [get_initiative_guidance], in the order in which it may
    append them. *)
Definition guidance_tags : list string :=
  ["MOOD_CONTEMPLATIVE"; "MOOD_LOW_ENERGY"; "MOOD_ENERGETIC";
   "ENGAGEMENT_LOW"; "TAKE_INITIATIVE"; "SHOW_INTEREST"; "BE_CURIOUS";
   "TOPIC_STALE"; "CONVERSATION_STAGNANT"; "BREAK_PATTERN"].

(** The emotions of the band table, and those that only a trigger
    override writes. *)
Definition band_emotions : list string :=
  ["excited"; "engaged"; "contemplative"; "reflective"; "interested";
   "thoughtful"; "neutral"; "tired"; "bored"].

Definition override_only_emotions : list string :=
  ["concerned"; "empathetic"; "helpful"].

(** The intensities of a detected trigger. *)
Definition trigger_intensities : list float := [0.9; 0.4; 0.7]%float.

(** The intensities of a dramatic action, by number of tags. *)
Definition action_intensities : list float :=
  [0; 0.25; 0.5; 0.75; 0.8]%float.

(** [tag in tags] *)
Definition mem_tag (tag : string) (tags : list string) : bool :=
  existsb (String.eqb tag) tags.

(** The behavioural modes and the kinds of initiative. *)
Definition behavioral_modes : list string :=
  ["contemplative"; "low_energy"; "energetic"; "engaged"; "disengaged";
   "balanced"].

Definition initiative_kinds : list string :=
  ["strong"; "moderate"; "gentle"; "none"].

(** A call of [analyze_conversation_state]: the clock, the random draw,
    the window of recent messages and the mood. *)
Definition analyze_call : Type :=
  timestamp * float * list Behavioral.Message * Emotional.MoodState.

Definition do_analyze (self : Behavioral.BehavioralEngine) (c : analyze_call)
    : Behavioral.BehavioralEngine :=
  let '(now, draw, recent_messages, emotional_state) := c in
  snd (Behavioral.analyze_conversation_state now draw recent_messages
         emotional_state self).

(** The behaviour engine after a sequence of analyses. *)
Definition run_analyze (calls : list analyze_call)
    (self : Behavioral.BehavioralEngine) : Behavioral.BehavioralEngine :=
  fold_left do_analyze calls self.

(** Number of analyses of a sequence whose window is not empty. *)
Definition nonempty_windows (calls : list analyze_call) : nat :=
  List.length
    (List.filter (fun c : analyze_call => negb (is_nil (snd (fst c)))) calls).

(** A window of five messages, three of them of the assistant. *)
Definition sample_window : list Behavioral.Message :=
  [ {| Behavioral.role := "user"; Behavioral.content := "hi" |};
    {| Behavioral.role := "assistant";
       Behavioral.content := "Hello, how are you today?" |};
    {| Behavioral.role := "user"; Behavioral.content := "fine" |};
    {| Behavioral.role := "assistant";
       Behavioral.content := "Good to hear that, tell me more." |};
    {| Behavioral.role := "assistant";
       Behavioral.content := "What did you do this morning?" |} ].

(** A reply with an extra key and no required field but the text. *)
Definition reply_with_extra : gmap string pyval :=
  <["response_text" := VStr "Hello there"]>
  (<["mood_assessment" := VStr "curious"]> ∅).

End Notions.

(** * Properties *)

(** ** Bounded history buffers *)

Module BufferProps.

Lemma length_last_n {A} (n : nat) (l : list A) :
  List.length (last_n n l) = Nat.min n (List.length l).
Proof. unfold last_n; rewrite length_drop; lia. Qed.

Lemma last_n_all {A} (n : nat) (l : list A) :
  (List.length l <= n)%nat -> last_n n l = l.
Proof.
  intros Hle; unfold last_n.
  now replace (List.length l - n)%nat with 0%nat by lia.
Qed.

Section Trim.

Context {A : Type}.
Variables cap keep : nat.
Hypothesis keep_le_cap : (keep <= cap)%nat.

Lemma trim_bounded (h : list A) (x : A) :
  (List.length h <= cap)%nat ->
  (List.length (trim cap keep (h ++ [x])) <= cap)%nat.
Proof.
  intros Hle; unfold trim.
  destruct (Nat.ltb_spec cap (List.length (h ++ [x]))) as [Hgt|Hngt].
  - rewrite length_last_n; lia.
  - exact Hngt.
Qed.

Lemma trim_step (h : list A) (x : A) :
  (List.length h <= cap)%nat ->
  trim cap keep (h ++ [x]) =
  last_n (if (List.length h =? cap)%nat then keep else S (List.length h))
         (h ++ [x]).
Proof.
  intros Hle; unfold trim; rewrite length_app; cbn [List.length].
  destruct (Nat.eqb_spec (List.length h) cap) as [Heq|Hne].
  - destruct (Nat.ltb_spec cap (List.length h + 1)); [reflexivity|lia].
  - destruct (Nat.ltb_spec cap (List.length h + 1)); [lia|].
    symmetry; apply last_n_all; rewrite length_app; cbn; lia.
Qed.

End Trim.

Lemma Forall_last_n {A} (P : A -> Prop) (n : nat) (l : list A) :
  Forall P l -> Forall P (last_n n l).
Proof. intros H; unfold last_n; now apply Forall_drop. Qed.

Lemma filter_all {A} (f : A -> bool) (l : list A) :
  forallb f l = true -> List.filter f l = l.
Proof.
  induction l as [|x l IH]; cbn; [reflexivity|].
  intros [Hx Hl]%andb_true_iff; rewrite Hx; f_equal; auto.
Qed.

End BufferProps.

(** ** The behaviour engine *)

Module BehavioralProps.

Import BufferProps.

Import Behavioral.

(** C10. A call of [update_topic_tracking] with [new_topic_detected] false
    returns the engine state it was given: the current topic, its start
    time and message counter, the topic performance table and the
    behavioural parameters are those of before the call, whatever the
    state, the [topic_name] argument and the clock. *)
Theorem update_topic_tracking_no_new_topic :
  forall (now : timestamp) (topic_name : option string)
         (self : BehavioralEngine),
    let self' := update_topic_tracking now false topic_name self in
    self' = self /\
    current_topic self' = current_topic self /\
    topic_start_time self' = topic_start_time self /\
    messages_on_topic self' = messages_on_topic self /\
    topic_performance self' = topic_performance self /\
    behavioral_params self' = behavioral_params self.
Proof.
  intros now topic_name self; cbn.
  repeat split; reflexivity.
Qed.

(** *** The adaptive threshold *)

Lemma adapt_threshold_step (h : list InitiativeRecord) (p : BehavioralParams) :
  let t := initiative_threshold p in
  let t' := initiative_threshold (adapt_threshold h p) in
  t' = t \/ t' = pymin 0.6 (t + 0.05) \/ t' = pymax 0.2 (t - 0.05).
Proof.
  unfold adapt_threshold.
  destruct (4 <=? List.length h)%nat; [|now left].
  destruct (recent_initiatives h) as [|r recent]; [now left|].
  destruct (fgt _ 0.8); [right; left; reflexivity|].
  destruct (flt _ 0.3); [right; right; reflexivity|now left].
Qed.

Ltac in_thresholds :=
  vm_compute; repeat (first [left; reflexivity | right]).

Lemma thresholds_closed (t : float) :
  In t Runs.thresholds ->
  In (pymin 0.6 (t + 0.05)) Runs.thresholds /\
  In (pymax 0.2 (t - 0.05)) Runs.thresholds.
Proof.
  intros Hin; simpl in Hin.
  repeat (destruct Hin as [<-|Hin]; [split; in_thresholds|]).
  destruct Hin.
Qed.

Lemma thresholds_bounded (t : float) :
  In t Runs.thresholds ->
  PrimFloat.leb 0.2 t = true /\ PrimFloat.leb t 0.6 = true.
Proof.
  intros Hin; simpl in Hin.
  repeat (destruct Hin as [<-|Hin]; [split; reflexivity|]).
  destruct Hin.
Qed.

Lemma learn_from_outcome_threshold now taken result self :
  In (initiative_threshold (behavioral_params self)) Runs.thresholds ->
  In (initiative_threshold
        (behavioral_params (learn_from_outcome now taken result self)))
     Runs.thresholds.
Proof.
  intros Hin; cbn [learn_from_outcome behavioral_params].
  destruct (thresholds_closed _ Hin) as [Hup Hdown].
  destruct (adapt_threshold_step
              (trim_initiative_history
                 (initiative_history self ++
                  [{| ir_timestamp := now; initiative_taken := taken;
                      engagement_result := result;
                      success := fgt result 0.6;
                      strong_success := fgt result 0.8 |}]))
              (behavioral_params self)) as [-> | [-> | ->]];
    assumption.
Qed.

Lemma run_outcomes_snoc now0 calls c :
  Runs.run_outcomes now0 (calls ++ [c]) =
  Runs.do_outcome (Runs.run_outcomes now0 calls) c.
Proof. unfold Runs.run_outcomes; now rewrite fold_left_app. Qed.

Lemma run_outcomes_threshold now0 calls :
  In (initiative_threshold (behavioral_params (Runs.run_outcomes now0 calls)))
     Runs.thresholds.
Proof.
  induction calls as [|c calls IH] using rev_ind.
  - in_thresholds.
  - rewrite run_outcomes_snoc.
    destruct c as [[now taken] result]; cbn [Runs.do_outcome].
    now apply learn_from_outcome_threshold.
Qed.

(** C6. After every sequence of [learn_from_outcome] calls on a fresh
    engine (threshold 0.35), whatever the [initiative_taken] flags and
    [engagement_result] values, [initiative_threshold] lies in the closed
    interval [0.2, 0.6].  The sequence is arbitrary, so this holds after
    each call of it. *)
Theorem initiative_threshold_in_range :
  forall (now0 : timestamp) (calls : list Runs.outcome_call),
    let t :=
      initiative_threshold (behavioral_params (Runs.run_outcomes now0 calls)) in
    PrimFloat.leb 0.2 t = true /\ PrimFloat.leb t 0.6 = true.
Proof.
  intros now0 calls t.
  apply thresholds_bounded, run_outcomes_threshold.
Qed.

(** *** The initiative history *)

Lemma trim_initiative_history_eq (h : list InitiativeRecord) :
  trim_initiative_history h = trim 20 10 h.
Proof. reflexivity. Qed.

Lemma initiative_history_bounded now0 calls :
  (List.length (initiative_history (Runs.run_outcomes now0 calls)) <= 20)%nat.
Proof.
  induction calls as [|c calls IH] using rev_ind.
  - cbn; lia.
  - rewrite run_outcomes_snoc.
    destruct c as [[now taken] result].
    cbn [Runs.do_outcome learn_from_outcome initiative_history].
    rewrite trim_initiative_history_eq.
    apply trim_bounded; [lia|exact IH].
Qed.

Lemma initiative_history_ok now0 calls :
  Forall Runs.record_ok (initiative_history (Runs.run_outcomes now0 calls)).
Proof.
  induction calls as [|c calls IH] using rev_ind.
  - constructor.
  - rewrite run_outcomes_snoc.
    destruct c as [[now taken] result].
    cbn [Runs.do_outcome learn_from_outcome initiative_history].
    unfold trim_initiative_history.
    assert (Hall : Forall Runs.record_ok
              (initiative_history (Runs.run_outcomes now0 calls) ++
               [{| ir_timestamp := now; initiative_taken := taken;
                   engagement_result := result; success := fgt result 0.6;
                   strong_success := fgt result 0.8 |}])).
    { apply Forall_app; split; [exact IH|].
      constructor; [reflexivity|constructor]. }
    destruct (20 <? _)%nat; [now apply Forall_last_n|exact Hall].
Qed.

Lemma filter_success_ok (l : list InitiativeRecord) :
  Forall Runs.record_ok l ->
  List.length (List.filter success l) = Runs.successes l.
Proof.
  unfold Runs.successes.
  induction 1 as [|r l Hr _ IH]; [reflexivity|].
  cbn [List.filter]; rewrite <- Hr.
  destruct (success r); cbn [List.length]; now rewrite IH.
Qed.

(** C5. Let the last five recorded attempts, the one of the current call
    included, all have [initiative_taken] true.  If exactly four of them
    have [engagement_result > 0.6], the call computes the success rate
    4/5 = 0.8 over them, which is not strictly above 0.8, and leaves
    [initiative_threshold] as it was; if all five have, the rate is 1.0
    and the threshold becomes [min(0.6, threshold + 0.05)]. *)
Theorem success_rate_boundary :
  forall (now0 : timestamp) (calls : list Runs.outcome_call)
         (now : timestamp) (taken : bool) (result : float),
    let self := Runs.run_outcomes now0 calls in
    let self' := learn_from_outcome now taken result self in
    let recent := last_n 5 (initiative_history self') in
    let k := Runs.successes recent in
    let t := initiative_threshold (behavioral_params self) in
    let t' := initiative_threshold (behavioral_params self') in
    List.length recent = 5%nat ->
    forallb initiative_taken recent = true ->
    k = 4%nat \/ k = 5%nat ->
    recent_initiatives (initiative_history self') = recent /\
    success_rate recent = (if (k =? 4)%nat then 0.8 else 1.0)%float /\
    fgt 0.8 0.8 = false /\
    t' = (if (k =? 4)%nat then t else pymin 0.6 (t + 0.05)) /\
    PrimFloat.leb t' 0.6 = true.
Proof.
  intros now0 calls now taken result self self' recent k t t' Hlen Htaken Hk.
  assert (Hself' : self' = Runs.run_outcomes now0 (calls ++ [(now, taken, result)])).
  { now rewrite run_outcomes_snoc. }
  assert (Hrecent : recent_initiatives (initiative_history self') = recent).
  { unfold recent_initiatives; now apply filter_all. }
  assert (Hlen' : (5 <= List.length (initiative_history self'))%nat).
  { subst recent; rewrite length_last_n in Hlen; lia. }
  assert (Hrate : success_rate recent =
                  truediv (Z.of_nat k) (Z.of_nat 5)).
  { unfold success_rate; rewrite Hlen, filter_success_ok; [reflexivity|].
    subst recent; apply Forall_last_n.
    rewrite Hself'; apply initiative_history_ok. }
  assert (Hrange : PrimFloat.leb t' 0.6 = true).
  { subst t'; rewrite Hself'.
    apply thresholds_bounded, run_outcomes_threshold. }
  assert (Ht' : t' = initiative_threshold
                       (adapt_threshold (initiative_history self')
                          (behavioral_params self))) by reflexivity.
  split; [exact Hrecent|].
  split; [rewrite Hrate; destruct Hk as [-> | ->]; reflexivity|].
  split; [reflexivity|].
  split; [|exact Hrange].
  rewrite Ht'; unfold adapt_threshold.
  destruct (Nat.leb_spec 4 (List.length (initiative_history self'))); [|lia].
  rewrite Hrecent.
  destruct recent as [|r rs] eqn:Erecent; [discriminate Hlen|].
  rewrite Hrate.
  destruct Hk as [-> | ->]; reflexivity.
Qed.

Lemma success_rate_boundary_witness :
  let self := Runs.run_outcomes 0%Z Runs.four_calls in
  let self' := learn_from_outcome 5%Z true 0.9 self in
  let self5 := Runs.run_outcomes 0%Z Runs.four_successes in
  let self5' := learn_from_outcome 5%Z true 0.9 self5 in
  Runs.successes (last_n 5 (initiative_history self')) = 4%nat /\
  initiative_threshold (behavioral_params self') =
    initiative_threshold (behavioral_params self) /\
  Runs.successes (last_n 5 (initiative_history self5')) = 5%nat /\
  initiative_threshold (behavioral_params self5') =
    pymin 0.6 (initiative_threshold (behavioral_params self5) + 0.05).
Proof.
  intros self self' self5 self5'.
  split; [reflexivity|]. split.
  - refine (proj1 (proj2 (proj2 (proj2
      (success_rate_boundary 0%Z Runs.four_calls 5%Z true 0.9 _ _ _))))).
    + reflexivity.
    + reflexivity.
    + left; reflexivity.
  - split; [reflexivity|].
    refine (proj1 (proj2 (proj2 (proj2
      (success_rate_boundary 0%Z Runs.four_successes 5%Z true 0.9 _ _ _))))).
    + reflexivity.
    + reflexivity.
    + right; reflexivity.
Defined.

End BehavioralProps.

(** ** The mood engine *)

Module EmotionalProps.

Import Linguistic Emotional BufferProps.

(** *** The recorded emotion *)

(** Whatever the message, the emotion that [update_mood_from_input] leaves
    in the mood is the one of the band table: the table is applied on
    every turn, after the trigger override. *)
Lemma update_emotion_is_band now parsed_message self :
  let m := current_mood (update_mood_from_input now parsed_message self) in
  primary_emotion m = band_emotion (engagement_level m) (energy_level m).
Proof.
  cbn [update_mood_from_input current_mood].
  unfold update_curiosity.
  destruct (has_question parsed_message); reflexivity.
Qed.

(** The band table has no row for the emotions that only a trigger
    override writes. *)
Lemma band_emotion_values engagement energy :
  In (band_emotion engagement energy)
     ["excited"; "engaged"; "contemplative"; "reflective"; "interested";
      "thoughtful"; "neutral"; "tired"; "bored"].
Proof.
  unfold band_emotion.
  repeat match goal with
         | |- context [if ?b then _ else _] => destruct b
         end;
    cbn; auto 10.
Qed.

(** C1, on the code as it is: the message "i am upset" fires the trigger
    of the category upset, whose override writes the emotion "concerned",
    and the band table, applied on the same turn, replaces it: the
    emotion recorded in the mood and in the history entry is "excited". *)
Theorem upset_trigger_emotion_overwritten :
  forall (now0 now : timestamp),
    let parsed := parse_user_message "i am upset" in
    let impact := _detect_emotional_triggers (lower (raw_message parsed)) in
    let self' := update_mood_from_input now parsed (init now0) in
    trigger_detected impact = true /\
    primary_trigger impact = Some "upset_keywords" /\
    primary_emotion
      (_apply_emotional_shift impact (current_mood (init now0))) =
      "concerned" /\
    primary_emotion (current_mood self') = "excited" /\
    map (fun h => (primary_emotion (mood_state h), amplification_applied h))
        (mood_history self') = [("excited", true)].
Proof.
  intros now0 now; cbv zeta.
  repeat split; reflexivity.
Qed.

(** C2. On a fresh engine (emotion neutral, engagement 0.5, energy 0.5,
    no history) the message "whatever, this is boring" is parsed and fed
    to [update_mood_from_input]: the trigger of the category bored fires,
    and the resulting mood has emotion "bored", engagement 0.2 and
    energy 0.3. *)
Theorem boring_message_scenario :
  forall (now0 now : timestamp),
    let self := init now0 in
    let parsed := parse_user_message "whatever, this is boring" in
    let impact := _detect_emotional_triggers (lower (raw_message parsed)) in
    let self' := update_mood_from_input now parsed self in
    (primary_emotion (current_mood self) = "neutral" /\
     engagement_level (current_mood self) = 0.5%float /\
     energy_level (current_mood self) = 0.5%float /\
     mood_history self = []) /\
    (trigger_detected impact = true /\
     primary_trigger impact = Some "bored_keywords") /\
    primary_emotion (current_mood self') = "bored" /\
    engagement_level (current_mood self') = 0.2%float /\
    energy_level (current_mood self') = 0.3%float /\
    map trigger (mood_history self') = [Some "bored_keywords"].
Proof.
  intros now0 now; cbv zeta.
  repeat split; reflexivity.
Qed.

(** *** Stagnation *)

Lemma last_n_3_app {A} (rest : list A) (a b c : A) :
  last_n 3 (rest ++ [a; b; c]) = [a; b; c].
Proof.
  unfold last_n; rewrite length_app; cbn [List.length].
  replace (List.length rest + 3 - 3)%nat with (List.length rest) by lia.
  apply drop_app_length.
Qed.

(** The claim C3 as stated fails: after the message of the scenario the
    engagement is 0.2, below 0.3, no trend sample is recorded, and
    [detect_conversation_stagnation] answers false. *)
Lemma stagnation_low_engagement_counterexample :
  flt (engagement_level (current_mood Runs.after_boring)) 0.3 = true /\
  engagement_trend Runs.after_boring = [] /\
  detect_conversation_stagnation Runs.after_boring = false.
Proof. repeat split; reflexivity. Qed.

(** C3, amended. With fewer than three trend samples recorded,
    [detect_conversation_stagnation] returns false, whatever the current
    engagement.  With at least three, it returns true exactly when the
    mean of the last three samples is below 0.4, or the last three samples
    are strictly decreasing, or the current engagement is below 0.3. *)
Theorem detect_stagnation_spec :
  forall (self : EmotionalEngine),
    ((List.length (engagement_trend self) < 3)%nat ->
     detect_conversation_stagnation self = false) /\
    (forall (rest : list TrendItem) (a b c : TrendItem),
       engagement_trend self = rest ++ [a; b; c] ->
       detect_conversation_stagnation self =
         flt (Runs.mean [engagement a; engagement b; engagement c]) 0.4
         || (flt (engagement c) (engagement b) &&
             flt (engagement b) (engagement a))
         || flt (engagement_level (current_mood self)) 0.3).
Proof.
  intros self; split.
  - intros Hlt; unfold detect_conversation_stagnation.
    destruct (Nat.ltb_spec (List.length (engagement_trend self)) 3);
      [reflexivity|lia].
  - intros rest a b c Htrend; unfold detect_conversation_stagnation.
    rewrite Htrend, last_n_3_app.
    destruct (Nat.ltb_spec (List.length (rest ++ [a; b; c])) 3) as [Hlt|_].
    { rewrite length_app in Hlt; cbn in Hlt; lia. }
    cbn [map List.length Nat.leb andb].
    change (fsum [engagement a; engagement b; engagement c] /
            float_of_Z (Z.of_nat 3))%float
      with (Runs.mean [engagement a; engagement b; engagement c]).
    destruct (flt (Runs.mean _) 0.4); [reflexivity|].
    destruct (flt (engagement c) (engagement b) &&
              flt (engagement b) (engagement a)); [reflexivity|].
    destruct (flt (engagement_level (current_mood self)) 0.3); reflexivity.
Qed.

Lemma detect_stagnation_spec_witness :
  detect_conversation_stagnation Runs.after_boring = false /\
  detect_conversation_stagnation Runs.after_boring_and_feedback = true.
Proof.
  split.
  - apply (proj1 (detect_stagnation_spec Runs.after_boring)).
    cbn; lia.
  - rewrite (proj2 (detect_stagnation_spec Runs.after_boring_and_feedback)
               [] _ _ _ eq_refl).
    reflexivity.
Defined.

End EmotionalProps.

(** ** The history buffers of both engines *)

Module HistoryProps.

Import Emotional Behavioral BufferProps.

Lemma run_mood_snoc now0 ops op :
  Runs.run_mood now0 (ops ++ [op]) =
  Runs.do_mood_op (Runs.run_mood now0 ops) op.
Proof. unfold Runs.run_mood; now rewrite fold_left_app. Qed.

Lemma trim_mood_history_eq (h : list MoodHistoryEntry) :
  trim_mood_history h = trim 50 25 h.
Proof. reflexivity. Qed.

Lemma mood_history_bounded now0 ops :
  (List.length (mood_history (Runs.run_mood now0 ops)) <= 50)%nat.
Proof.
  induction ops as [|op ops IH] using rev_ind.
  - cbn; lia.
  - rewrite run_mood_snoc.
    destruct op as [now parsed_message|now engagement_score feedback_score].
    + cbn [Runs.do_mood_op update_mood_from_input mood_history].
      rewrite trim_mood_history_eq.
      apply trim_bounded; [lia|exact IH].
    + exact IH.
Qed.

(** C9. After any sequence of operations on a fresh mood engine the mood
    history has at most 50 entries, and a further update appends its
    entry and keeps the most recent 25 entries when that makes 51, all of
    them otherwise.  After any sequence of [learn_from_outcome] calls on a
    fresh behaviour engine the initiative history has at most 20 entries,
    and a further call appends its record and keeps the most recent 10
    records when that makes 21, all of them otherwise. *)
Theorem history_buffers_bounded :
  forall (now0 : timestamp) (ops : list Runs.mood_op)
         (calls : list Runs.outcome_call) (now : timestamp)
         (parsed_message : Linguistic.ParsedMessage)
         (taken : bool) (result : float),
    let e := Runs.run_mood now0 ops in
    let e' := update_mood_from_input now parsed_message e in
    let b := Runs.run_outcomes now0 calls in
    let b' := learn_from_outcome now taken result b in
    let n := List.length (mood_history e) in
    let k := List.length (initiative_history b) in
    (n <= 50)%nat /\
    (List.length (mood_history e') <= 50)%nat /\
    (exists entry,
       mood_history e' =
       last_n (if (n =? 50)%nat then 25 else S n) (mood_history e ++ [entry])) /\
    (k <= 20)%nat /\
    (List.length (initiative_history b') <= 20)%nat /\
    (exists record,
       initiative_history b' =
       last_n (if (k =? 20)%nat then 10 else S k)
              (initiative_history b ++ [record])).
Proof.
  intros now0 ops calls now parsed_message taken result e e' b b' n k.
  assert (Hn : (n <= 50)%nat) by apply mood_history_bounded.
  assert (Hk : (k <= 20)%nat)
    by apply BehavioralProps.initiative_history_bounded.
  split; [exact Hn|]. split.
  { pose proof (mood_history_bounded now0
                  (ops ++ [Runs.OpUpdate now parsed_message])) as H.
    now rewrite run_mood_snoc in H. }
  split.
  { eexists. subst e'; cbn [update_mood_from_input mood_history].
    rewrite trim_mood_history_eq. apply trim_step; [lia|exact Hn]. }
  split; [exact Hk|]. split.
  { pose proof (BehavioralProps.initiative_history_bounded now0
                  (calls ++ [(now, taken, result)])) as H.
    now rewrite BehavioralProps.run_outcomes_snoc in H. }
  eexists. subst b'; cbn [learn_from_outcome initiative_history].
  rewrite BehavioralProps.trim_initiative_history_eq.
  apply trim_step; [lia|exact Hk].
Qed.

End HistoryProps.

(** ** Words of a text *)

Module StringProps.

Import NormaliserSpec.

Lemma app_nil_str (b : string) : EmptyString +:+ b = b.
Proof. reflexivity. Qed.

Lemma app_cons_str (c : ascii) (a b : string) :
  String c a +:+ b = String c (a +:+ b).
Proof. reflexivity. Qed.

Ltac str_simpl := rewrite ?app_nil_str, ?app_cons_str; cbn.

Lemma app_assoc_str (a b c : string) : (a +:+ b) +:+ c = a +:+ (b +:+ c).
Proof.
  induction a as [|x a IH]; [reflexivity|].
  rewrite !app_cons_str; f_equal; exact IH.
Qed.

Lemma app_empty_r (a : string) : a +:+ EmptyString = a.
Proof.
  induction a as [|x a IH]; [reflexivity|].
  rewrite app_cons_str; f_equal; exact IH.
Qed.

Lemma nonempty_snoc (cur : string) (c : ascii) :
  nonempty_str (cur +:+ String c EmptyString) = true.
Proof. destruct cur; reflexivity. Qed.

Lemma nospace_app (a b : string) :
  nospace (a +:+ b) = nospace a && nospace b.
Proof.
  induction a as [|x a IH]; str_simpl; [reflexivity|].
  rewrite IH; now destruct (isspace x).
Qed.

(** The number of words that [split] returns is the count [wc_go]. *)
Lemma length_split_go (s cur : string) :
  List.length (split_go cur s) = wc_go (nonempty_str cur) s.
Proof.
  revert cur; induction s as [|c s IH]; intros cur; cbn.
  - now destruct cur.
  - destruct (isspace c).
    + destruct cur; cbn; now rewrite IH.
    + now rewrite IH, nonempty_snoc.
Qed.

Lemma length_split (s : string) : List.length (split s) = wc_go false s.
Proof. apply length_split_go. Qed.

Lemma wc_go_lb (b : bool) (s : string) :
  ((if b then 1 else 0) <= wc_go b s)%nat.
Proof.
  revert b; induction s as [|c s IH]; intros b; cbn; [lia|].
  destruct (isspace c); [lia|].
  specialize (IH true); cbn in IH; destruct b; lia.
Qed.

Lemma wc_go_true_le (s : string) : (wc_go true s <= 1 + wc_go false s)%nat.
Proof. destruct s as [|c s]; cbn; [lia|]. destruct (isspace c); lia. Qed.

(** A prefix of a text has at most as many words as the text. *)
Lemma wc_go_slice (n : nat) (s : string) (b : bool) :
  (wc_go b (slice_to n s) <= wc_go b s)%nat.
Proof.
  revert n b; induction s as [|c s IH]; intros n b.
  - destruct n; cbn; lia.
  - destruct n as [|n].
    + apply (wc_go_lb b (String c s)).
    + cbn. destruct (isspace c).
      * specialize (IH n false); lia.
      * apply IH.
Qed.

Lemma wc_go_app (a x : string) (b : bool) :
  (wc_go b (a +:+ x) <= wc_go b a + wc_go false x)%nat.
Proof.
  revert b; induction a as [|c a IH]; intros b; str_simpl.
  - destruct b; [apply wc_go_true_le|lia].
  - destruct (isspace c).
    + specialize (IH false); lia.
    + apply IH.
Qed.

(** Reading a run of non-whitespace characters extends the current
    word. *)
Lemma split_go_nospace (w s cur : string) :
  nospace w = true -> split_go cur (w +:+ s) = split_go (cur +:+ w) s.
Proof.
  revert cur; induction w as [|c w IH]; intros cur Hw; str_simpl.
  - now rewrite app_empty_r.
  - cbn in Hw; apply andb_true_iff in Hw as [Hc Hw].
    destruct (isspace c); [discriminate|].
    rewrite IH by exact Hw.
    now rewrite app_assoc_str.
Qed.

Lemma split_word (w : string) : is_word w -> split w = [w].
Proof.
  intros [Hne Hw]; unfold split.
  rewrite <- (app_empty_r w) at 1.
  rewrite split_go_nospace by exact Hw; str_simpl.
  now destruct w.
Qed.

(** Joining words with single spaces and splitting again gives the words
    back. *)
Lemma split_join (ws : list string) :
  Forall is_word ws -> split (join " " ws) = ws.
Proof.
  induction 1 as [|w ws Hw Hws IH]; [reflexivity|].
  destruct ws as [|w' ws]; [now apply split_word|].
  change (join " " (w :: w' :: ws))
    with (w +:+ (String " " (join " " (w' :: ws)))).
  destruct Hw as [Hne Hw]; unfold split.
  rewrite split_go_nospace by exact Hw; rewrite app_nil_str.
  cbn [split_go]; change (isspace " ") with true; cbn match.
  destruct w; [discriminate Hne|].
  f_equal; exact IH.
Qed.

(** What [split] returns are words. *)
Lemma split_go_words (s cur : string) :
  nospace cur = true -> Forall is_word (split_go cur s).
Proof.
  revert cur; induction s as [|c s IH]; intros cur Hcur; cbn.
  - destruct cur; repeat constructor; exact Hcur.
  - destruct (isspace c) eqn:Hc.
    + destruct cur; [now apply IH|].
      constructor; [split; [reflexivity|exact Hcur]|now apply IH].
    + apply IH; rewrite nospace_app, Hcur; cbn; now rewrite Hc.
Qed.

Lemma split_words (s : string) : Forall is_word (split s).
Proof. now apply split_go_words. Qed.

(** The words of the truncation are the first 55 words. *)
Lemma split_truncation (s : string) :
  split (join " " (take 55 (split s))) = take 55 (split s).
Proof. apply split_join, Forall_take, split_words. Qed.

(** The last index satisfying one of two predicates is the larger of the
    last indices of each. *)
Lemma rscan_or (p q : ascii -> bool) (s : string) (i b1 b2 : Z) :
  (b1 < i)%Z -> (b2 < i)%Z ->
  rscan (fun c => p c || q c) i (Z.max b1 b2) s =
  Z.max (rscan p i b1 s) (rscan q i b2 s).
Proof.
  revert i b1 b2; induction s as [|c s IH]; intros i b1 b2 H1 H2; cbn;
    [reflexivity|].
  destruct (p c), (q c); cbn.
  - rewrite <- (IH (i + 1)%Z i i) by lia. now rewrite Z.max_id.
  - rewrite <- (IH (i + 1)%Z i b2) by lia. f_equal; lia.
  - rewrite <- (IH (i + 1)%Z b1 i) by lia. f_equal; lia.
  - apply IH; lia.
Qed.

Lemma last_sentence_end_rfind (t : string) :
  Z.max (Z.max (rfind "." t) (rfind "?" t)) (rfind "!" t) =
  last_sentence_end t.
Proof.
  unfold rfind, last_sentence_end, sentence_end.
  rewrite <- (rscan_or (Ascii.eqb ".") (Ascii.eqb "?") t 0 (-1) (-1)) by lia.
  rewrite <- (rscan_or (fun c => Ascii.eqb "." c || Ascii.eqb "?" c)
                (Ascii.eqb "!") t 0 (Z.max (-1) (-1)) (-1)) by lia.
  reflexivity.
Qed.

(** The replacement text of the engine is the cut of the specification. *)
Lemma truncate_words_cut (words : list string) :
  Linguistic.truncate_words words = cut_at_sentence (join " " (take 55 words)).
Proof.
  unfold Linguistic.truncate_words, cut_at_sentence.
  now rewrite last_sentence_end_rfind.
Qed.

(** The cut of a truncation has at most 56 words. *)
Lemma cut_at_sentence_words (t : string) :
  (List.length (split (cut_at_sentence t)) <= List.length (split t) + 1)%nat.
Proof.
  unfold cut_at_sentence; rewrite !length_split.
  destruct (fgt _ _).
  - pose proof (wc_go_slice (Z.to_nat (last_sentence_end t + 1)) t false); lia.
  - pose proof (wc_go_app t "..." false) as H.
    change (wc_go false "...") with 1%nat in H. exact H.
Qed.

Lemma truncate_words_bound (s : string) :
  (List.length (split (Linguistic.truncate_words (split s))) <= 56)%nat.
Proof.
  rewrite truncate_words_cut.
  pose proof (cut_at_sentence_words (join " " (take 55 (split s)))) as H.
  rewrite split_truncation, length_take in H. lia.
Qed.

End StringProps.

(** ** The feature extractor *)

Module LinguisticProps.

Import Linguistic NormaliserSpec BufferProps.

(** C4, on the code as it is: the message "tell me about my day" has five
    words, no question, exclamation, capital or emotional keyword, and
    contains the personal keywords "my" and "me"; the loop over the
    personal keywords has no [break] and adds 0.05 for each, so the
    estimate is 0.5 + 0.05 + 0.05, above the 0.5 + 0.05 of a bonus added
    once. *)
Theorem personal_bonus_added_per_keyword :
  let parsed := parse_user_message message_me_my in
  let message_lower := lower message_me_my in
  word_count parsed = 5%Z /\
  emotional_loop emotional_indicators message_lower 0.5 = 0.5%float /\
  map (fun k => contains k message_lower) personal_indicators =
    [false; false; true; true; false] /\
  personal_loop personal_indicators message_lower 0.5 =
    (0.5 + 0.05 + 0.05)%float /\
  estimated_engagement parsed = 0.6000000000000001%float /\
  fgt (estimated_engagement parsed) (0.5 + 0.05) = true.
Proof. cbv zeta; repeat split; reflexivity. Qed.

(** *** The steps of the normaliser on a reply object *)

Lemma fill_field_lookup (d : gmap string pyval) (field k : string) :
  fill_field d field !! k =
  if decide (field = k)
  then Some (default (_get_default_value field) (d !! field))
  else d !! k.
Proof.
  unfold fill_field.
  destruct (d !! field) as [v|] eqn:Hf; case_decide; simplify_map_eq; done.
Qed.

Lemma fill_field_id (d : gmap string pyval) (field : string) :
  is_Some (d !! field) -> fill_field d field = d.
Proof. intros [v Hv]; unfold fill_field; now rewrite Hv. Qed.

Lemma fill_required_id (d : gmap string pyval) :
  is_Some (d !! "response_text") ->
  is_Some (d !! "engagement_analysis") ->
  is_Some (d !! "boredom_detected") ->
  fill_required d = d.
Proof.
  intros H1 H2 H3; unfold fill_required, required_fields; cbn [fold_left].
  rewrite (fill_field_id d "response_text") by exact H1.
  rewrite (fill_field_id d "engagement_analysis") by exact H2.
  now rewrite (fill_field_id d "boredom_detected") by exact H3.
Qed.

Lemma fill_required_response_text (d : gmap string pyval) :
  fill_required d !! "response_text" =
  Some (default (VStr "Tell me more about that.") (d !! "response_text")).
Proof.
  unfold fill_required, required_fields; cbn [fold_left].
  rewrite !fill_field_lookup.
  repeat (case_decide; [discriminate|]).
  case_decide; [reflexivity|done].
Qed.

Lemma fill_required_engagement (d : gmap string pyval) :
  fill_required d !! "engagement_analysis" =
  Some (default (VFloat 0.5) (d !! "engagement_analysis")).
Proof.
  unfold fill_required, required_fields; cbn [fold_left].
  rewrite !fill_field_lookup.
  case_decide; [discriminate|].
  case_decide; [|done].
  case_decide; [discriminate|reflexivity].
Qed.

Lemma fill_required_boredom (d : gmap string pyval) :
  is_Some (fill_required d !! "boredom_detected").
Proof.
  unfold fill_required, required_fields; cbn [fold_left].
  rewrite fill_field_lookup.
  case_decide; [eauto|done].
Qed.

Lemma fill_required_other (d : gmap string pyval) (k : string) :
  k <> "response_text" -> k <> "engagement_analysis" ->
  k <> "boredom_detected" ->
  fill_required d !! k = d !! k.
Proof.
  intros H1 H2 H3; unfold fill_required, required_fields; cbn [fold_left].
  rewrite !fill_field_lookup.
  repeat (case_decide; [congruence|]); reflexivity.
Qed.

Lemma ensure_learning_feedback_lookup (d : gmap string pyval) (k : string) :
  k <> "learning_feedback" -> ensure_learning_feedback d !! k = d !! k.
Proof.
  intros Hk; unfold ensure_learning_feedback.
  destruct (d !! "learning_feedback"); [reflexivity|].
  now rewrite lookup_insert_ne.
Qed.

Lemma ensure_learning_feedback_present (d : gmap string pyval) :
  is_Some (ensure_learning_feedback d !! "learning_feedback").
Proof.
  unfold ensure_learning_feedback.
  destruct (d !! "learning_feedback") eqn:H; [rewrite H; eauto|].
  rewrite lookup_insert_eq; eauto.
Qed.

(** Clamping to [0.1, 0.9] is idempotent, also on a NaN. *)
Lemma clamp_idempotent (x : float) :
  let f := pymax 0.1 (pymin 0.9 x) in pymax 0.1 (pymin 0.9 f) = f.
Proof.
  unfold pymax, pymin, fgt, flt.
  destruct (PrimFloat.ltb x 0.9) eqn:E1.
  - destruct (PrimFloat.ltb 0.1 x) eqn:E2.
    + now rewrite E1, E2.
    + reflexivity.
  - reflexivity.
Qed.

Lemma enforce_word_limit_ok (d d1 : gmap string pyval) :
  enforce_word_limit d = Some d1 ->
  match d1 !! "response_text" with Some v => ok_text v | None => True end.
Proof.
  unfold enforce_word_limit.
  destruct (d !! "response_text") as [v|] eqn:Hrt; cbn [from_option id].
  - destruct (truthy v) eqn:Htruthy.
    + destruct v as [|b|z|f|s|l|d']; cbn match; try discriminate.
      destruct (Nat.ltb_spec 60 (List.length (split s))) as [Hgt|Hle];
        intros [= <-].
      * rewrite lookup_insert_eq. right; eexists; split; [reflexivity|].
        pose proof (StringProps.truncate_words_bound s); lia.
      * rewrite Hrt. right; eauto.
    + intros [= <-]; rewrite Hrt; now left.
  - cbn. intros [= <-]; now rewrite Hrt.
Qed.

Lemma enforce_word_limit_id (d : gmap string pyval) (v : pyval) :
  d !! "response_text" = Some v -> ok_text v ->
  enforce_word_limit d = Some d.
Proof.
  intros Hrt Hok; unfold enforce_word_limit; rewrite Hrt; cbn [from_option id].
  destruct Hok as [-> | (s & -> & Hle)]; [reflexivity|].
  destruct (truthy (VStr s)); [|reflexivity].
  destruct (Nat.ltb_spec 60 (List.length (split s))); [lia|reflexivity].
Qed.

(** On a reply whose text is a [str], the word limit yields the limited
    text of the specification. *)
Lemma enforce_word_limit_str (d : gmap string pyval) (s : string) :
  d !! "response_text" = Some (VStr s) ->
  exists d1, enforce_word_limit d = Some d1 /\
    d1 !! "response_text" = Some (VStr (limited_text s)) /\
    d1 !! "engagement_analysis" = d !! "engagement_analysis".
Proof.
  intros Hrt; unfold enforce_word_limit, limited_text.
  rewrite Hrt; cbn [from_option id].
  destruct (truthy (VStr s)) eqn:Htruthy.
  - destruct (60 <? List.length (split s))%nat.
    + eexists; split; [reflexivity|]; split.
      * now rewrite lookup_insert_eq, StringProps.truncate_words_cut.
      * now rewrite lookup_insert_ne.
    + eexists; split; [reflexivity|]; split; [exact Hrt|reflexivity].
  - destruct s; [|discriminate Htruthy].
    eexists; split; [reflexivity|]; split; [exact Hrt|reflexivity].
Qed.

Lemma limited_text_words (s : string) :
  (List.length (split (limited_text s)) <= 60)%nat.
Proof.
  unfold limited_text.
  destruct (Nat.ltb_spec 60 (List.length (split s))) as [Hgt|Hle];
    [|exact Hle].
  rewrite <- StringProps.truncate_words_cut.
  pose proof (StringProps.truncate_words_bound s); lia.
Qed.

Lemma error_response_normalized : normalized _create_error_response.
Proof.
  repeat split.
  - eexists; split; [reflexivity|].
    right; eexists; split; [reflexivity|].
    apply Nat.leb_le; reflexivity.
  - eexists; split; reflexivity.
  - eexists; reflexivity.
  - eexists; reflexivity.
Qed.

Lemma finish_response_text d1 f :
  finish d1 f !! "response_text" =
  Some (default (VStr "Tell me more about that.") (d1 !! "response_text")).
Proof.
  unfold finish.
  rewrite ensure_learning_feedback_lookup by discriminate.
  rewrite lookup_insert_ne by discriminate.
  apply fill_required_response_text.
Qed.

Lemma finish_engagement d1 f :
  finish d1 f !! "engagement_analysis" =
  Some (VFloat (pymax 0.1 (pymin 0.9 f))).
Proof.
  unfold finish.
  rewrite ensure_learning_feedback_lookup by discriminate.
  apply lookup_insert_eq.
Qed.

Lemma finish_normalized d0 d1 f :
  enforce_word_limit d0 = Some d1 -> normalized (finish d1 f).
Proof.
  intros Henforce; apply enforce_word_limit_ok in Henforce.
  repeat split.
  - rewrite finish_response_text.
    destruct (d1 !! "response_text") as [v|]; cbn [from_option id].
    + eauto.
    + eexists; split; [reflexivity|].
      right; eexists; split; [reflexivity|].
      apply Nat.leb_le; reflexivity.
  - rewrite finish_engagement; eexists; split; [reflexivity|].
    apply clamp_idempotent.
  - unfold finish.
    rewrite ensure_learning_feedback_lookup by discriminate.
    rewrite lookup_insert_ne by discriminate.
    apply fill_required_boredom.
  - apply ensure_learning_feedback_present.
Qed.

Section Normaliser.

Variable float_of_str : string -> option float.
Variable extract_json : string -> json_outcome.

Lemma clamp_engagement_fill (d1 : gmap string pyval) :
  clamp_engagement float_of_str (fill_required d1) =
  f ← py_float float_of_str
        (default (VFloat 0.5) (d1 !! "engagement_analysis"));
  Some (<["engagement_analysis" := VFloat (pymax 0.1 (pymin 0.9 f))]>
          (fill_required d1)).
Proof.
  unfold clamp_engagement; now rewrite fill_required_engagement.
Qed.

(** The body of the normaliser from the reply object it works on. *)
Lemma process_from (d0 : gmap string pyval) :
  (d1 ← enforce_word_limit d0;
   d2 ← clamp_engagement float_of_str (fill_required d1);
   Some (ensure_learning_feedback d2)) =
  (d1 ← enforce_word_limit d0;
   f ← py_float float_of_str
         (default (VFloat 0.5) (d1 !! "engagement_analysis"));
   Some (finish d1 f)).
Proof.
  destruct (enforce_word_limit d0) as [d1|]; cbn [mbind option_bind];
    [|reflexivity].
  rewrite clamp_engagement_fill.
  now destruct (py_float float_of_str _).
Qed.

Lemma process_body_some (raw : raw_response) (out : gmap string pyval) :
  process_body float_of_str extract_json raw = Some out ->
  exists d0 d1 f, enforce_word_limit d0 = Some d1 /\ out = finish d1 f.
Proof.
  unfold process_body.
  destruct (obtain_response_data extract_json raw) as [d0|];
    cbn [mbind option_bind]; [|discriminate].
  rewrite process_from.
  destruct (enforce_word_limit d0) as [d1|] eqn:He; cbn [mbind option_bind];
    [|discriminate].
  destruct (py_float float_of_str _) as [f|]; cbn [mbind option_bind];
    [|discriminate].
  intros [= <-]; eauto.
Qed.

(** Whatever it is given, the normaliser returns a normalised reply. *)
Lemma process_llm_response_normalized (raw : raw_response) :
  normalized (process_llm_response float_of_str extract_json raw).
Proof.
  unfold process_llm_response.
  destruct (process_body float_of_str extract_json raw) as [out|] eqn:Hbody.
  - apply process_body_some in Hbody as (d0 & d1 & f & He & ->).
    now apply finish_normalized with d0.
  - apply error_response_normalized.
Qed.

(** A normalised reply goes through every step unchanged. *)
Lemma process_body_normalized (d : gmap string pyval) :
  normalized d ->
  process_body float_of_str extract_json (RawObj d) = Some d.
Proof.
  intros ((v & Hrt & Hok) & (f & Hea & Hf) & Hbd & Hlf).
  unfold process_body; cbn [obtain_response_data mbind option_bind].
  rewrite (enforce_word_limit_id d v Hrt Hok); cbn [mbind option_bind].
  rewrite fill_required_id by (rewrite ?Hrt, ?Hea; eauto).
  unfold clamp_engagement; rewrite Hea; cbn [py_float mbind option_bind].
  rewrite Hf, insert_id by exact Hea.
  unfold ensure_learning_feedback.
  destruct Hlf as [w ->]; reflexivity.
Qed.

End Normaliser.

(** The claim C7 as stated fails: a reply of two words whose
    [engagement_analysis] is [null] makes [float] raise, and the
    normaliser returns the error reply, whose text is another one. *)
Lemma short_text_replaced_counterexample :
  reply_null_engagement !! "response_text" = Some (VStr "Hello there") /\
  List.length (split "Hello there") = 2%nat /\
  forall (float_of_str : string -> option float)
         (extract_json : string -> json_outcome),
    let out :=
      process_llm_response float_of_str extract_json
        (RawObj reply_null_engagement) in
    out !! "response_text" =
      Some (VStr "Something's not clicking for me right now. What's really on your mind?") /\
    out !! "response_text" <> Some (VStr "Hello there").
Proof.
  split; [reflexivity|]. split; [reflexivity|].
  intros float_of_str extract_json out.
  assert (Hout : out = _create_error_response) by reflexivity.
  rewrite Hout; split; [reflexivity|discriminate].
Qed.

(** C7, amended. Let the [response_text] of a reply object be a text of
    N words.  The text of the normalised reply has at most 60 words.  If
    the [engagement_analysis] of the reply is absent or converts to a
    float, that text is the given one when N <= 60, and otherwise the
    first 55 words joined by single spaces, cut after the last sentence
    end when that lies in the last 20% of these, or followed by an
    ellipsis.  If the conversion fails, the reply is the fixed error
    reply. *)
Theorem normalized_text_within_limit :
  forall (float_of_str : string -> option float)
         (extract_json : string -> json_outcome)
         (d : gmap string pyval) (s : string),
    d !! "response_text" = Some (VStr s) ->
    let out := process_llm_response float_of_str extract_json (RawObj d) in
    let words := split s in
    let truncated := join " " (take 55 words) in
    (exists s', out !! "response_text" = Some (VStr s') /\
                (List.length (split s') <= 60)%nat) /\
    (engagement_converts float_of_str d = true ->
       out !! "response_text" = Some (VStr (limited_text s)) /\
       ((List.length words <= 60)%nat -> limited_text s = s) /\
       ((60 < List.length words)%nat ->
          limited_text s = cut_at_sentence truncated /\
          split truncated = take 55 words /\
          List.length (take 55 words) = 55%nat)) /\
    (engagement_converts float_of_str d = false ->
       out = _create_error_response).
Proof.
  intros float_of_str extract_json d s Hrt out words truncated.
  destruct (enforce_word_limit_str d s Hrt) as (d1 & He & Hrt1 & Hea1).
  assert (Hbody :
    process_body float_of_str extract_json (RawObj d) =
    f ← py_float float_of_str
          (default (VFloat 0.5) (d !! "engagement_analysis"));
    Some (finish d1 f)).
  { unfold process_body; cbn [obtain_response_data mbind option_bind].
    rewrite (process_from float_of_str d), He; cbn [mbind option_bind].
    now rewrite Hea1. }
  assert (Hconv :
    engagement_converts float_of_str d =
    match py_float float_of_str
            (default (VFloat 0.5) (d !! "engagement_analysis")) with
    | Some _ => true
    | None => false
    end).
  { unfold engagement_converts.
    now destruct (d !! "engagement_analysis"). }
  subst out; unfold process_llm_response; rewrite Hbody, Hconv.
  destruct (py_float float_of_str _) as [f|]; cbn [mbind option_bind].
  - assert (Hout : finish d1 f !! "response_text" =
                   Some (VStr (limited_text s))).
    { now rewrite finish_response_text, Hrt1. }
    split; [|split; [|discriminate]].
    + eexists; split; [exact Hout|apply limited_text_words].
    + intros _; split; [exact Hout|].
      unfold limited_text; fold words; fold truncated.
      split; intros Hlen.
      * destruct (Nat.ltb_spec 60 (List.length words)); [lia|reflexivity].
      * destruct (Nat.ltb_spec 60 (List.length words)); [|lia].
        split; [reflexivity|].
        split; [apply StringProps.split_truncation|].
        rewrite length_take; lia.
  - split; [|split; [discriminate|reflexivity]].
    eexists; split; [reflexivity|].
    apply Nat.leb_le; reflexivity.
Qed.

Lemma normalized_text_within_limit_witness :
  let normalize :=
    process_llm_response (fun _ => None) (fun _ => NoJson) in
  normalize (RawObj reply_short) !! "response_text" =
    Some (VStr "Hello there") /\
  normalize (RawObj reply_seventy_words) !! "response_text" =
    Some (VStr (join " " (repeat "word" 55) +:+ "...")).
Proof.
  intros normalize; subst normalize; split.
  - destruct (normalized_text_within_limit (fun _ => None) (fun _ => NoJson)
                reply_short "Hello there" eq_refl)
      as (_ & H & _).
    destruct (H eq_refl) as (Hout & Hshort & _).
    rewrite Hout, Hshort; [reflexivity|].
    apply Nat.leb_le; reflexivity.
  - destruct (normalized_text_within_limit (fun _ => None) (fun _ => NoJson)
                reply_seventy_words seventy_words eq_refl)
      as (_ & H & _).
    destruct (H eq_refl) as (Hout & _ & Hlong).
    assert (Hlen : (60 < List.length (split seventy_words))%nat)
      by (apply Nat.ltb_lt; reflexivity).
    destruct (Hlong Hlen) as (Hcut & _ & _).
    rewrite Hout, Hcut; reflexivity.
Defined.

(** C8. The normaliser is idempotent: the reply object it returns, for a
    reply object or a text, is returned unchanged when it is normalised
    again. *)
Theorem process_llm_response_idempotent :
  forall (float_of_str : string -> option float)
         (extract_json : string -> json_outcome) (raw : raw_response),
    let out := process_llm_response float_of_str extract_json raw in
    process_llm_response float_of_str extract_json (RawObj out) = out.
Proof.
  intros float_of_str extract_json raw out.
  unfold process_llm_response at 1.
  rewrite process_body_normalized; [reflexivity|].
  apply process_llm_response_normalized.
Qed.

End LinguisticProps.

(** ** Floats *)

Module FloatProps.

Import Notions.

Lemma ltb_leb (a b : float) :
  PrimFloat.ltb a b = true -> PrimFloat.leb a b = true.
Proof.
  rewrite ltb_spec, leb_spec; unfold SFltb, SFleb.
  destruct (SFcompare _ _) as [[| |]|]; congruence.
Qed.

(** [max(lo, min(hi, x))] lies between [lo] and [hi], also for a NaN. *)
Lemma clamp_in_range (lo hi x : float) :
  PrimFloat.leb lo lo = true -> PrimFloat.leb lo hi = true ->
  PrimFloat.leb hi hi = true ->
  in_range lo hi (pymax lo (pymin hi x)).
Proof.
  intros Hlo Hlohi Hhi; unfold in_range, pymax, pymin, fgt, flt.
  destruct (PrimFloat.ltb x hi) eqn:E1.
  - destruct (PrimFloat.ltb lo x) eqn:E2; auto using ltb_leb.
  - destruct (PrimFloat.ltb lo hi); auto.
Qed.

Lemma clamp_01_09 (x : float) : in_range 0.1 0.9 (pymax 0.1 (pymin 0.9 x)).
Proof. now apply clamp_in_range. Qed.

Lemma pymin_le (hi x : float) :
  PrimFloat.leb hi hi = true -> PrimFloat.leb (pymin hi x) hi = true.
Proof.
  intros Hhi; unfold pymin, flt.
  destruct (PrimFloat.ltb x hi) eqn:E; auto using ltb_leb.
Qed.

End FloatProps.

(** ** Further properties of the feature extractor and the normaliser *)

Module LinguisticMore.

Import Linguistic NormaliserSpec Notions FloatProps StringProps.
Import LinguisticProps.

(** X1. Whatever the message, [estimated_engagement] lies in the closed
    interval [0.1, 0.9]. *)
Theorem estimated_engagement_in_range :
  forall (message : string),
    in_range 0.1 0.9 (estimated_engagement (parse_user_message message)).
Proof. intros message; apply clamp_01_09. Qed.

(** X2. Whatever it is given, a reply object or a text, the normaliser
    returns a reply that has a [response_text] which is a false value or
    a text of at most 60 words, an [engagement_analysis] which is a float
    of [0.1, 0.9], a [boredom_detected] and a [learning_feedback]. *)
Theorem normalised_reply_complete :
  forall (float_of_str : string -> option float)
         (extract_json : string -> json_outcome) (raw : raw_response),
    let out := process_llm_response float_of_str extract_json raw in
    (exists v, out !! "response_text" = Some v /\ ok_text v) /\
    (exists f, out !! "engagement_analysis" = Some (VFloat f) /\
               in_range 0.1 0.9 f) /\
    is_Some (out !! "boredom_detected") /\
    is_Some (out !! "learning_feedback").
Proof.
  intros float_of_str extract_json raw out.
  destruct (process_llm_response_normalized float_of_str extract_json raw)
    as (Hrt & (f & Hea & Hf) & Hbd & Hlf).
  repeat split; try assumption.
  exists f; split; [exact Hea|].
  rewrite <- Hf; apply clamp_01_09.
Qed.

(** *** The fallback for a plain text *)

Lemma split_go_lstrip (s : string) :
  split_go EmptyString (lstrip s) = split_go EmptyString s.
Proof.
  induction s as [|c s IH]; [reflexivity|]; cbn.
  destruct (isspace c) eqn:Hc; [exact IH|].
  cbn; now rewrite Hc.
Qed.

Lemma split_go_cons (cur : string) (c : ascii) (s : string) :
  split_go cur (String c s) =
  if isspace c
  then match cur with
       | EmptyString => split_go EmptyString s
       | _ => cur :: split_go EmptyString s
       end
  else split_go (cur +:+ String c EmptyString) s.
Proof. reflexivity. Qed.

Lemma split_go_rstrip (s cur : string) :
  split_go cur (rstrip s) = split_go cur s.
Proof.
  revert cur; induction s as [|c s IH]; intros cur; [reflexivity|].
  cbn [rstrip].
  destruct (rstrip s) as [|c' r] eqn:Hr.
  - rewrite (split_go_cons cur c s).
    destruct (isspace c) eqn:Hc.
    + rewrite <- (IH EmptyString). now destruct cur.
    + rewrite <- (IH (cur +:+ String c EmptyString)).
      now rewrite split_go_cons, Hc.
  - rewrite (split_go_cons cur c s), (split_go_cons cur c (String c' r)).
    destruct (isspace c).
    + now rewrite <- (IH EmptyString).
    + now rewrite <- IH.
Qed.

Lemma split_strip (s : string) : split (strip s) = split s.
Proof.
  unfold split, strip. now rewrite split_go_rstrip, split_go_lstrip.
Qed.

(** The text that the fallback wraps has at most 55 words. *)
Lemma fallback_text_words (s : string) :
  let limited_text :=
    if (55 <? List.length (split s))%nat
    then join " " (take 50 (split s)) +:+ "..."
    else strip s in
  (List.length (split limited_text) <= 55)%nat.
Proof.
  cbv zeta.
  destruct (Nat.ltb_spec 55 (List.length (split s))) as [Hgt|Hle].
  - pose proof (wc_go_app (join " " (take 50 (split s))) "..." false) as H.
    change (wc_go false "...") with 1%nat in H.
    rewrite <- !length_split in H.
    rewrite (split_join (take 50 (split s))) in H
      by apply Forall_take, split_words.
    rewrite length_take in H. lia.
  - now rewrite split_strip.
Qed.

Lemma fallback_response_text (s : string) :
  exists t, _create_fallback_response s !! "response_text" = Some (VStr t) /\
            nonempty_str t = true /\ (List.length (split t) <= 55)%nat.
Proof.
  unfold _create_fallback_response; rewrite lookup_insert_eq.
  pose proof (fallback_text_words s) as Hwords; cbv zeta in Hwords.
  destruct (if (55 <? List.length (split s))%nat
            then join " " (take 50 (split s)) +:+ "..."
            else strip s) as [|c t] eqn:Ht.
  - eexists; split; [reflexivity|]. split; [reflexivity|].
    apply Nat.leb_le; reflexivity.
  - eexists; split; [reflexivity|]. split; [reflexivity|exact Hwords].
Qed.

Lemma fallback_response_normalized (s : string) :
  normalized (_create_fallback_response s).
Proof.
  destruct (fallback_response_text s) as (t & Hrt & _ & Hwords).
  repeat split.
  - eexists; split; [exact Hrt|]. right; eexists; split; [reflexivity|lia].
  - eexists; split; reflexivity.
  - eexists; reflexivity.
  - eexists; reflexivity.
Qed.

(** X3. A text in which no JSON object is found is answered by the
    fallback reply as [_create_fallback_response] builds it: no later
    step changes it.  Its [response_text] is a non-empty text of at most
    55 words, and its [engagement_analysis] is 0.6. *)
Theorem plain_text_gives_fallback :
  forall (float_of_str : string -> option float)
         (extract_json : string -> json_outcome) (s : string),
    extract_json s = NoJson ->
    let out := process_llm_response float_of_str extract_json (RawText s) in
    out = _create_fallback_response s /\
    (exists t, out !! "response_text" = Some (VStr t) /\
               nonempty_str t = true /\
               (List.length (split t) <= 55)%nat) /\
    out !! "engagement_analysis" = Some (VFloat 0.6) /\
    out !! "boredom_detected" = Some (VBool false) /\
    out !! "initiative_taken" = Some (VBool false).
Proof.
  intros float_of_str extract_json s Hno out.
  assert (Hout : out = _create_fallback_response s).
  { subst out; unfold process_llm_response.
    assert (Hbody :
      process_body float_of_str extract_json (RawText s) =
      process_body float_of_str extract_json
        (RawObj (_create_fallback_response s))).
    { unfold process_body; cbn [obtain_response_data]; now rewrite Hno. }
    rewrite Hbody, process_body_normalized; [reflexivity|].
    apply fallback_response_normalized. }
  rewrite Hout; split; [reflexivity|].
  split; [apply fallback_response_text|].
  repeat split; reflexivity.
Qed.

Lemma plain_text_gives_fallback_witness :
  process_llm_response (fun _ => None) (fun _ => NoJson)
    (RawText "  just some words  ") !! "response_text" =
  Some (VStr "just some words").
Proof.
  destruct (plain_text_gives_fallback (fun _ => None) (fun _ => NoJson)
              "  just some words  " eq_refl) as (Hout & _).
  rewrite Hout; reflexivity.
Defined.

(** *** What the normaliser does to a reply object *)

Lemma enforce_word_limit_spec (d : gmap string pyval) :
  if text_unsplittable d then enforce_word_limit d = None
  else exists d1, enforce_word_limit d = Some d1 /\
         (forall k, k <> "response_text" -> d1 !! k = d !! k) /\
         d1 !! "response_text" =
           match d !! "response_text" with
           | Some (VStr s) => Some (VStr (limited_text s))
           | o => o
           end.
Proof.
  unfold text_unsplittable, enforce_word_limit.
  destruct (d !! "response_text") as [v|] eqn:Hrt; cbn [from_option id].
  - destruct v as [|b|z|f|s|l|d'];
      try (destruct (truthy _) eqn:Htruthy; [reflexivity|];
           exists d; split; [reflexivity|]; split; [reflexivity|exact Hrt]).
    destruct (enforce_word_limit_str d s Hrt) as (d1 & He & Hrt1 & _).
      unfold enforce_word_limit in He; rewrite Hrt in He;
        cbn [from_option id] in He.
    exists d1; split; [exact He|]; split; [|exact Hrt1].
    intros k Hk. destruct (truthy (VStr s)).
    + destruct (60 <? _)%nat; injection He as <-;
        [now rewrite lookup_insert_ne|reflexivity].
    + now injection He as <-.
  - exists d; split; [reflexivity|]; split; [reflexivity|exact Hrt].
Qed.

Lemma finish_boredom d1 f :
  finish d1 f !! "boredom_detected" =
  Some (default (VBool false) (d1 !! "boredom_detected")).
Proof.
  unfold finish.
  rewrite ensure_learning_feedback_lookup by discriminate.
  rewrite lookup_insert_ne by discriminate.
  unfold fill_required, required_fields; cbn [fold_left].
  rewrite !fill_field_lookup.
  case_decide; [|done].
  repeat (case_decide; [discriminate|]).
  reflexivity.
Qed.

Lemma finish_learning_feedback d1 f :
  finish d1 f !! "learning_feedback" =
  Some (default
          (VDict (<["response_quality" := VFloat 0.5]>
                  (<["user_satisfaction_predicted" := VFloat 0.5]> ∅)))
          (d1 !! "learning_feedback")).
Proof.
  unfold finish, ensure_learning_feedback.
  rewrite lookup_insert_ne by discriminate.
  rewrite fill_required_other by discriminate.
  destruct (d1 !! "learning_feedback") as [v|] eqn:Hlf.
  - rewrite lookup_insert_ne by discriminate.
    now rewrite fill_required_other by discriminate.
  - now rewrite lookup_insert_eq.
Qed.

Lemma finish_other d1 f (k : string) :
  ~ In k normaliser_keys -> finish d1 f !! k = d1 !! k.
Proof.
  intros Hk; cbn in Hk. unfold finish.
  rewrite ensure_learning_feedback_lookup by intuition.
  rewrite lookup_insert_ne by intuition.
  apply fill_required_other; intuition.
Qed.

(** The body of the normaliser on a reply object, step by step. *)
Lemma process_body_obj_cases float_of_str extract_json
    (d : gmap string pyval) :
  if text_unsplittable d
  then process_body float_of_str extract_json (RawObj d) = None
  else exists d1,
    (forall k, k <> "response_text" -> d1 !! k = d !! k) /\
    d1 !! "response_text" =
      match d !! "response_text" with
      | Some (VStr s) => Some (VStr (limited_text s))
      | o => o
      end /\
    process_body float_of_str extract_json (RawObj d) =
      f ← py_float float_of_str
            (default (VFloat 0.5) (d !! "engagement_analysis"));
      Some (finish d1 f).
Proof.
  pose proof (enforce_word_limit_spec d) as He.
  unfold process_body; cbn [obtain_response_data mbind option_bind].
  rewrite (process_from float_of_str d).
  destruct (text_unsplittable d).
  - now rewrite He.
  - destruct He as (d1 & -> & Hother & Hrt); cbn [mbind option_bind].
    exists d1; split; [exact Hother|]; split; [exact Hrt|].
    now rewrite Hother by discriminate.
Qed.

(** X4. On a reply object the normaliser gives up, and returns the fixed
    error reply, exactly when the [response_text] is a true value that is
    not a text, or the [engagement_analysis] is present and does not
    convert to a float. *)
Theorem normaliser_error_cases :
  forall (float_of_str : string -> option float)
         (extract_json : string -> json_outcome) (d : gmap string pyval),
    let body := process_body float_of_str extract_json (RawObj d) in
    let out := process_llm_response float_of_str extract_json (RawObj d) in
    let ok :=
      negb (text_unsplittable d) && engagement_converts float_of_str d in
    is_some body = ok /\
    (if ok then body = Some out else out = _create_error_response).
Proof.
  intros float_of_str extract_json d body out ok.
  subst body out ok; unfold process_llm_response.
  pose proof (process_body_obj_cases float_of_str extract_json d) as H.
  assert (Hconv :
    engagement_converts float_of_str d =
    is_some (py_float float_of_str
               (default (VFloat 0.5) (d !! "engagement_analysis")))).
  { unfold engagement_converts.
    destruct (d !! "engagement_analysis") as [v|]; cbn [from_option id];
      [|reflexivity].
    now destruct (py_float float_of_str v). }
  rewrite Hconv.
  destruct (text_unsplittable d); cbn [negb andb].
  - rewrite H; split; reflexivity.
  - destruct H as (d1 & _ & _ & ->).
    destruct (py_float float_of_str _); split; reflexivity.
Qed.

(** X5. When the normaliser does not give up on a reply object, the four
    fields it is in charge of are: the text, cut to the word limit when
    it is a text and replaced by "Tell me more about that." when absent;
    the clamped float of the [engagement_analysis], 0.5 when absent; the
    given [boredom_detected], false when absent; the given
    [learning_feedback], 0.5 and 0.5 when absent. *)
Theorem normaliser_fields :
  forall (float_of_str : string -> option float)
         (extract_json : string -> json_outcome)
         (d out : gmap string pyval),
    process_body float_of_str extract_json (RawObj d) = Some out ->
    out !! "response_text" =
      Some (match d !! "response_text" with
            | Some (VStr s) => VStr (limited_text s)
            | Some v => v
            | None => VStr "Tell me more about that."
            end) /\
    (exists f,
       py_float float_of_str
         (default (VFloat 0.5) (d !! "engagement_analysis")) = Some f /\
       out !! "engagement_analysis" =
         Some (VFloat (pymax 0.1 (pymin 0.9 f)))) /\
    out !! "boredom_detected" =
      Some (default (VBool false) (d !! "boredom_detected")) /\
    out !! "learning_feedback" =
      Some (default
              (VDict (<["response_quality" := VFloat 0.5]>
                      (<["user_satisfaction_predicted" := VFloat 0.5]> ∅)))
              (d !! "learning_feedback")).
Proof.
  intros float_of_str extract_json d out Hbody.
  pose proof (process_body_obj_cases float_of_str extract_json d) as H.
  destruct (text_unsplittable d); [congruence|].
  destruct H as (d1 & Hother & Hrt & Heq); rewrite Heq in Hbody.
  destruct (py_float float_of_str _) as [f|]; [|discriminate].
  injection Hbody as <-.
  split; [|split; [|split]].
  - rewrite finish_response_text, Hrt.
    destruct (d !! "response_text") as [[| | | |s| |]|]; reflexivity.
  - exists f; split; [reflexivity|apply finish_engagement].
  - now rewrite finish_boredom, Hother by discriminate.
  - now rewrite finish_learning_feedback, Hother by discriminate.
Qed.

Lemma normaliser_fields_witness :
  process_llm_response (fun _ => None) (fun _ => NoJson)
    (RawObj reply_with_extra) !! "engagement_analysis" = Some (VFloat 0.5).
Proof.
  destruct (normaliser_fields (fun _ => None) (fun _ => NoJson)
              reply_with_extra
              (process_llm_response (fun _ => None) (fun _ => NoJson)
                 (RawObj reply_with_extra)) eq_refl)
    as (_ & (f & Hf & Hea) & _).
  rewrite Hea. injection Hf as <-. reflexivity.
Defined.

(** X6. When the normaliser does not give up on a reply object, every
    key other than [response_text], [engagement_analysis],
    [boredom_detected] and [learning_feedback] keeps the value it had, or
    stays absent. *)
Theorem normaliser_keeps_other_keys :
  forall (float_of_str : string -> option float)
         (extract_json : string -> json_outcome)
         (d out : gmap string pyval) (k : string),
    process_body float_of_str extract_json (RawObj d) = Some out ->
    ~ In k normaliser_keys ->
    out !! k = d !! k.
Proof.
  intros float_of_str extract_json d out k Hbody Hk.
  pose proof (process_body_obj_cases float_of_str extract_json d) as H.
  destruct (text_unsplittable d); [congruence|].
  destruct H as (d1 & Hother & _ & Heq); rewrite Heq in Hbody.
  destruct (py_float float_of_str _) as [f|]; [|discriminate].
  injection Hbody as <-.
  rewrite finish_other by exact Hk.
  apply Hother; cbn in Hk; intuition.
Qed.

Lemma normaliser_keeps_other_keys_witness :
  process_llm_response (fun _ => None) (fun _ => NoJson)
    (RawObj reply_with_extra) !! "mood_assessment" = Some (VStr "curious") /\
  process_llm_response (fun _ => None) (fun _ => NoJson)
    (RawObj reply_with_extra) !! "initiative_taken" = None.
Proof.
  split.
  - transitivity (reply_with_extra !! "mood_assessment"); [|reflexivity].
    apply (normaliser_keeps_other_keys (fun _ => None) (fun _ => NoJson)
             reply_with_extra
             (process_llm_response (fun _ => None) (fun _ => NoJson)
                (RawObj reply_with_extra))
             "mood_assessment" eq_refl).
    cbn; intuition discriminate.
  - transitivity (reply_with_extra !! "initiative_taken"); [|reflexivity].
    apply (normaliser_keeps_other_keys (fun _ => None) (fun _ => NoJson)
             reply_with_extra
             (process_llm_response (fun _ => None) (fun _ => NoJson)
                (RawObj reply_with_extra))
             "initiative_taken" eq_refl).
    cbn; intuition discriminate.
Defined.

End LinguisticMore.

(** ** Further properties of the mood engine *)

Module EmotionalMore.

Import Linguistic Emotional Notions FloatProps BufferProps.

(** *** Trigger detection *)

Lemma first_keyword_some (keywords : list string) (message_text : string) :
  is_some (first_keyword keywords message_text) =
  existsb (fun keyword => contains keyword message_text) keywords.
Proof.
  induction keywords as [|k ks IH]; [reflexivity|]; cbn.
  destruct (contains k message_text); [reflexivity|exact IH].
Qed.

Lemma keyword_intensity_values (keyword : string) :
  In (keyword_intensity keyword) trigger_intensities.
Proof.
  unfold keyword_intensity, trigger_intensities.
  destruct (mem keyword _); [now left|].
  destruct (mem keyword _); [right; now left|right; right; now left].
Qed.

Lemma detect_loop_spec (categories : list (string * list string))
    (message_text : string) :
  let info := detect_loop categories message_text in
  primary_trigger info =
    fst <$> List.find (category_matches message_text) categories /\
  trigger_detected info = is_some (primary_trigger info) /\
  (if trigger_detected info
   then In (intensity info) trigger_intensities
   else intensity info = 0%float).
Proof.
  induction categories as [|[emotion_type keywords] rest IH];
    [repeat split|].
  cbn [detect_loop List.find]. unfold category_matches at 1; cbn [snd].
  rewrite <- first_keyword_some.
  destruct (first_keyword keywords message_text) as [keyword|]; cbn.
  - repeat split. apply keyword_intensity_values.
  - exact IH.
Qed.

(** X7. [_detect_emotional_triggers] reports the first category, in the
    order upset, sad, excited, bored, confused, thoughtful, calm, one of
    whose keywords occurs in the text, and none when no keyword of any
    category occurs.  A trigger is detected exactly when a category is
    reported; its intensity is then 0.9, 0.4 or 0.7, and 0.0 otherwise. *)
Theorem detect_emotional_triggers_first_category :
  forall (message_text : string),
    let info := _detect_emotional_triggers message_text in
    primary_trigger info =
      fst <$> List.find (category_matches message_text) emotion_triggers /\
    trigger_detected info = is_some (primary_trigger info) /\
    (if trigger_detected info
     then In (intensity info) trigger_intensities
     else intensity info = 0%float).
Proof. intros message_text; apply detect_loop_spec. Qed.

Lemma detected_category (message_text : string) :
  let info := _detect_emotional_triggers message_text in
  trigger_detected info = true ->
  exists category,
    primary_trigger info = Some category /\
    In category (map fst emotion_triggers) /\
    In (intensity info) trigger_intensities.
Proof.
  intros info Hdet.
  destruct (detect_loop_spec emotion_triggers message_text)
    as (Hprim & Hsome & Hint).
  fold (_detect_emotional_triggers message_text) in Hprim, Hsome, Hint.
  fold info in Hprim, Hsome, Hint.
  rewrite Hdet in Hint.
  destruct (List.find _ emotion_triggers) as [[category kws]|] eqn:Hfind.
  - exists category; split; [exact Hprim|]; split; [|exact Hint].
    apply find_some in Hfind as [Hin _].
    now apply (in_map fst) in Hin.
  - rewrite Hsome, Hprim in Hdet; discriminate.
Qed.

(** *** The engagement level *)

Lemma shift_mood_engagement (category : string) (i : float) (m : MoodState) :
  In category (map fst emotion_triggers) ->
  In i trigger_intensities ->
  in_range 0.1 0.9 (engagement_level (shift_mood category i m)).
Proof.
  intros Hcat Hi; cbn in Hcat, Hi.
  repeat (destruct Hcat as [<-|Hcat];
          [repeat (destruct Hi as [<-|Hi]; [split; reflexivity|]);
           destruct Hi|]).
  destruct Hcat.
Qed.

Lemma update_engagement now parsed_message self :
  engagement_level
    (current_mood (update_mood_from_input now parsed_message self)) =
  let info :=
    _detect_emotional_triggers (lower (raw_message parsed_message)) in
  engagement_level
    (if trigger_detected info
     then _apply_emotional_shift info (current_mood self)
     else blend_engagement (estimated_engagement parsed_message)
            (current_mood self)).
Proof.
  cbn [update_mood_from_input current_mood].
  unfold update_curiosity, update_energy.
  repeat match goal with
         | |- context [if ?b then _ else _] =>
             lazymatch b with
             | trigger_detected _ => fail
             | _ => destruct b
             end
         end; reflexivity.
Qed.

(** X8. After [update_mood_from_input], whatever the message and the
    state before, [engagement_level] lies in the closed interval
    [0.1, 0.9]. *)
Theorem engagement_level_in_range :
  forall (now : timestamp) (parsed_message : ParsedMessage)
         (self : EmotionalEngine),
    in_range 0.1 0.9
      (engagement_level
         (current_mood (update_mood_from_input now parsed_message self))).
Proof.
  intros now parsed_message self.
  rewrite update_engagement; cbv zeta.
  destruct (trigger_detected _) eqn:Hdet.
  - apply detected_category in Hdet as (category & Hprim & Hcat & Hint).
    unfold _apply_emotional_shift; rewrite Hprim.
    now apply shift_mood_engagement.
  - apply clamp_01_09.
Qed.

(** X9. After [update_mood_from_input], whatever the message and the
    state before, [primary_emotion] is the entry of the band table for
    the resulting engagement and energy: one of the nine emotions of the
    table, and never "concerned", "empathetic" or "helpful". *)
Theorem recorded_emotion_is_band_emotion :
  forall (now : timestamp) (parsed_message : ParsedMessage)
         (self : EmotionalEngine),
    let m := current_mood (update_mood_from_input now parsed_message self) in
    primary_emotion m = band_emotion (engagement_level m) (energy_level m) /\
    In (primary_emotion m) band_emotions /\
    mem (primary_emotion m) override_only_emotions = false.
Proof.
  intros now parsed_message self m.
  assert (Hband : primary_emotion m =
                  band_emotion (engagement_level m) (energy_level m))
    by apply EmotionalProps.update_emotion_is_band.
  assert (Hin : In (primary_emotion m) band_emotions).
  { rewrite Hband; apply EmotionalProps.band_emotion_values. }
  repeat split; try assumption.
  revert Hin; generalize (primary_emotion m); intros e Hin.
  cbn in Hin.
  repeat (destruct Hin as [<-|Hin]; [reflexivity|]).
  destruct Hin.
Qed.

(** *** The mood history *)

Lemma last_last_n_snoc {A} (n : nat) (h : list A) (x : A) :
  (0 < n)%nat -> last (last_n n (h ++ [x])) = Some x.
Proof.
  intros Hn; unfold last_n; rewrite length_app; cbn [List.length].
  rewrite drop_app_le by lia.
  apply last_snoc.
Qed.

Lemma last_trim_snoc {A} (cap keep : nat) (h : list A) (x : A) :
  (0 < keep)%nat -> last (trim cap keep (h ++ [x])) = Some x.
Proof.
  intros Hkeep; unfold trim.
  destruct (cap <? _)%nat; [now apply last_last_n_snoc|apply last_snoc].
Qed.

Lemma shift_mood_last_updated trigger_type i m :
  last_updated (shift_mood trigger_type i m) = last_updated m.
Proof.
  unfold shift_mood.
  repeat match goal with
         | |- context [if ?b then _ else _] => destruct b
         end; reflexivity.
Qed.

Lemma update_snapshot_last_updated now parsed_message self entry :
  last (mood_history (update_mood_from_input now parsed_message self)) =
    Some entry ->
  last_updated (mood_state entry) = last_updated (current_mood self).
Proof.
  cbn [update_mood_from_input mood_history].
  change (trim_mood_history ?h) with (trim 50 25 h).
  rewrite last_trim_snoc by lia.
  intros [= <-]; cbn [mood_state].
  unfold update_curiosity, update_energy, _apply_emotional_shift,
    blend_engagement.
  repeat match goal with
         | |- context [if ?b then _ else _] => destruct b
         | |- context [match ?o with Some _ => _ | None => _ end] =>
             destruct o
         end; cbn; try apply shift_mood_last_updated; reflexivity.
Qed.

(** X10. After [update_mood_from_input] the newest entry of the mood
    history describes the turn: its snapshot is the current mood except
    for [last_updated], which in the snapshot is still the one of before
    the call; its time stamp is the one of the call; its
    [engagement_score] is the estimate of the message; its trigger label
    is the category of the detected trigger, and is absent exactly when
    [amplification_applied] is false. *)
Theorem newest_history_entry :
  forall (now : timestamp) (parsed_message : ParsedMessage)
         (self : EmotionalEngine),
    let self' := update_mood_from_input now parsed_message self in
    let info :=
      _detect_emotional_triggers (lower (raw_message parsed_message)) in
    exists entry,
      last (mood_history self') = Some entry /\
      current_mood self' = set_last_updated now (mood_state entry) /\
      last_updated (mood_state entry) = last_updated (current_mood self) /\
      mh_timestamp entry = now /\
      engagement_score entry = estimated_engagement parsed_message /\
      trigger entry = primary_trigger info /\
      amplification_applied entry = is_some (trigger entry).
Proof.
  intros now parsed_message self self' info.
  assert (Hlast : exists entry, last (mood_history self') = Some entry /\
            current_mood self' = set_last_updated now (mood_state entry) /\
            mh_timestamp entry = now /\
            engagement_score entry = estimated_engagement parsed_message /\
            trigger entry = primary_trigger info /\
            amplification_applied entry = trigger_detected info).
  { subst self'; cbn [update_mood_from_input mood_history current_mood].
    change (trim_mood_history ?h) with (trim 50 25 h).
    rewrite last_trim_snoc by lia.
    eexists; split; [reflexivity|]. repeat split. }
  destruct Hlast as (entry & Hlast & Hmood & Hts & Hscore & Htrig & Hamp).
  exists entry; repeat split; try assumption.
  - now apply (update_snapshot_last_updated now parsed_message self).
  - rewrite Hamp, Htrig.
    apply (detect_loop_spec emotion_triggers
             (lower (raw_message parsed_message))).
Qed.

(** *** The engagement trend *)

Lemma engagement_trend_bounded now0 ops :
  (List.length (engagement_trend (Runs.run_mood now0 ops)) <= 20)%nat.
Proof.
  induction ops as [|op ops IH] using rev_ind.
  - cbn; lia.
  - rewrite HistoryProps.run_mood_snoc.
    destruct op as [now parsed_message|now engagement_score feedback_score].
    + exact IH.
    + cbn [Runs.do_mood_op learn_from_feedback engagement_trend].
      change (trim_trend ?h) with (trim 20 10 h).
      apply trim_bounded; [lia|exact IH].
Qed.

(** X11. The engagement trend is fed by [learn_from_feedback] alone and
    is bounded: after any sequence of operations on a fresh engine it has
    at most 20 samples; [update_mood_from_input] leaves it as it is;
    [learn_from_feedback] appends its sample and keeps the most recent 10
    samples when that makes 21, all of them otherwise, and leaves the
    mood history and the emotion, engagement and curiosity of the mood as
    they are. *)
Theorem engagement_trend_bounded_and_frames :
  forall (now0 : timestamp) (ops : list Runs.mood_op) (now : timestamp)
         (parsed_message : ParsedMessage)
         (engagement_score feedback_score : float),
    let e := Runs.run_mood now0 ops in
    let u := update_mood_from_input now parsed_message e in
    let f := learn_from_feedback now engagement_score feedback_score e in
    let n := List.length (engagement_trend e) in
    (n <= 20)%nat /\
    engagement_trend u = engagement_trend e /\
    engagement_trend f =
      last_n (if (n =? 20)%nat then 10 else S n)
        (engagement_trend e ++
         [{| tr_timestamp := now; engagement := engagement_score;
             feedback := feedback_score |}]) /\
    mood_history f = mood_history e /\
    primary_emotion (current_mood f) = primary_emotion (current_mood e) /\
    engagement_level (current_mood f) = engagement_level (current_mood e) /\
    curiosity_level (current_mood f) = curiosity_level (current_mood e).
Proof.
  intros now0 ops now parsed_message engagement_score feedback_score e u f n.
  assert (Hn : (n <= 20)%nat) by apply engagement_trend_bounded.
  split; [exact Hn|]. split; [reflexivity|]. split.
  { subst f; cbn [learn_from_feedback engagement_trend].
    change (trim_trend ?h) with (trim 20 10 h).
    apply trim_step; [lia|exact Hn]. }
  subst f; cbn [learn_from_feedback mood_history current_mood].
  repeat match goal with
         | |- context [if ?b then _ else _] => destruct b
         end; repeat split; reflexivity.
Qed.

(** *** Dramatic action *)

Lemma dramatic_action_cases (self : EmotionalEngine) :
  let a := should_take_dramatic_action self in
  sublist (triggers a) dramatic_tags /\
  NoDup (triggers a) /\
  mem "STAGNATION_DETECTED" (triggers a) =
    detect_conversation_stagnation self /\
  mem "POOR_FEEDBACK" (triggers a) = poor_feedback self /\
  take_action a =
    (2 <=? (Nat.b2n (detect_conversation_stagnation self) +
            Nat.b2n (flt (energy_level (current_mood self)) 0.2) +
            Nat.b2n (mem (primary_emotion (current_mood self))
                       ["bored"; "tired"]) +
            Nat.b2n (poor_feedback self)))%nat /\
  In (action_intensity a) action_intensities /\
  take_action a = PrimFloat.leb 0.5 (action_intensity a).
Proof.
  unfold should_take_dramatic_action.
  destruct (detect_conversation_stagnation self),
    (flt (energy_level (current_mood self)) 0.2),
    (mem (primary_emotion (current_mood self)) ["bored"; "tired"]),
    (poor_feedback self);
    vm_compute;
    (split; [repeat constructor|]);
    (split; [apply (bool_decide_unpack _); vm_compute; exact I|]);
    (split; [reflexivity|]); (split; [reflexivity|]);
    (split; [reflexivity|]);
    (split; [repeat (first [left; reflexivity | right])|reflexivity]).
Qed.

(** X12. [should_take_dramatic_action] collects, in this order and at
    most once each, the tags STAGNATION_DETECTED, VERY_LOW_ENERGY,
    NEGATIVE_EMOTION and POOR_FEEDBACK; it asks for action exactly when
    at least two of the four conditions hold, which is exactly when the
    intensity is at least 0.5; the intensity is one of 0, 0.25, 0.5, 0.75
    and 0.8. *)
Theorem dramatic_action_needs_two_triggers :
  forall (self : EmotionalEngine),
    let a := should_take_dramatic_action self in
    sublist (triggers a) dramatic_tags /\
    NoDup (triggers a) /\
    take_action a =
      (2 <=? (Nat.b2n (detect_conversation_stagnation self) +
              Nat.b2n (flt (energy_level (current_mood self)) 0.2) +
              Nat.b2n (mem (primary_emotion (current_mood self))
                         ["bored"; "tired"]) +
              Nat.b2n (poor_feedback self)))%nat /\
    In (action_intensity a) action_intensities /\
    take_action a = PrimFloat.leb 0.5 (action_intensity a).
Proof.
  intros self a.
  destruct (dramatic_action_cases self) as (H1 & H2 & _ & _ & H3 & H4 & H5).
  repeat split; assumption.
Qed.

(** X13. With fewer than three feedback samples recorded, neither
    stagnation nor poor feedback can be reported, so
    [should_take_dramatic_action] asks for action exactly when the energy
    is below 0.2 and the emotion is "bored" or "tired". *)
Theorem dramatic_action_on_short_trend :
  forall (self : EmotionalEngine),
    (List.length (engagement_trend self) < 3)%nat ->
    let a := should_take_dramatic_action self in
    take_action a =
      flt (energy_level (current_mood self)) 0.2 &&
      mem (primary_emotion (current_mood self)) ["bored"; "tired"] /\
    mem "STAGNATION_DETECTED" (triggers a) = false /\
    mem "POOR_FEEDBACK" (triggers a) = false.
Proof.
  intros self Hlen a.
  destruct (dramatic_action_cases self) as (_ & _ & Hs & Hp & Ht & _ & _).
  assert (Hstag : detect_conversation_stagnation self = false).
  { unfold detect_conversation_stagnation.
    destruct (Nat.ltb_spec (List.length (engagement_trend self)) 3);
      [reflexivity|lia]. }
  assert (Hpoor : poor_feedback self = false).
  { unfold poor_feedback.
    destruct (Nat.leb_spec 3 (List.length (engagement_trend self)));
      [lia|reflexivity]. }
  subst a; split; [|split].
  - rewrite Ht, Hstag, Hpoor.
    destruct (flt (energy_level (current_mood self)) 0.2),
      (mem (primary_emotion (current_mood self)) ["bored"; "tired"]);
      reflexivity.
  - now rewrite Hs.
  - now rewrite Hp.
Qed.

Lemma dramatic_action_on_short_trend_witness :
  take_action (should_take_dramatic_action Runs.after_boring) = false.
Proof.
  rewrite (proj1 (dramatic_action_on_short_trend Runs.after_boring
                    ltac:(cbn; lia))).
  reflexivity.
Defined.

(** X14. The context that [get_emotional_context_for_llm] builds is
    consistent: it reports stagnation exactly when the tag
    STAGNATION_DETECTED is among its action triggers, it asks for a
    dramatic action exactly when it lists at least two triggers, and its
    recent trend is empty when the mood history has fewer than three
    entries and otherwise repeats the emotion, engagement, energy and
    trigger flag of the last three entries. *)
Theorem emotional_context_consistent :
  forall (self : EmotionalEngine),
    let ctx := get_emotional_context_for_llm self in
    stagnation_detected ctx = mem "STAGNATION_DETECTED" (action_triggers ctx) /\
    dramatic_action_needed ctx =
      (2 <=? List.length (action_triggers ctx))%nat /\
    List.length (recent_trend ctx) =
      (if (3 <=? List.length (mood_history self))%nat then 3 else 0)%nat /\
    map (fun t => (tv_emotion t, tv_engagement t, tv_energy t,
                   trigger_applied t)) (recent_trend ctx) =
      (if (3 <=? List.length (mood_history self))%nat
       then map (fun h => (primary_emotion (mood_state h),
                           engagement_level (mood_state h),
                           energy_level (mood_state h),
                           amplification_applied h))
                (last_n 3 (mood_history self))
       else []).
Proof.
  intros self ctx; subst ctx.
  destruct (dramatic_action_cases self) as (_ & _ & Hs & _).
  cbn [get_emotional_context_for_llm stagnation_detected action_triggers
       dramatic_action_needed recent_trend].
  split; [now rewrite Hs|]. split; [reflexivity|].
  destruct (Nat.leb_spec 3 (List.length (mood_history self))) as [Hge|Hlt].
  - split.
    + rewrite length_map, length_last_n; lia.
    + rewrite map_map; reflexivity.
  - split; reflexivity.
Qed.

End EmotionalMore.

(** ** Further properties of the behaviour engine *)

Module BehavioralMore.

Import Behavioral Notions FloatProps BufferProps.

(** *** Initiative *)

Lemma initiative_analysis_cases
    (self : BehavioralEngine) (draw boredom_level engagement : float)
    (topic_persistence : Z) (emotional_state : Emotional.MoodState) :
  let a :=
    _analyze_initiative_needs self draw boredom_level engagement
      topic_persistence emotional_state in
  needed a = negb (String.eqb (initiative_kind a) "none") /\
  needed a = negb (is_nil (fired a)) /\
  In (initiative_kind a) initiative_kinds /\
  intensity a = (if needed a then pymin 0.8 (score a) else 0%float) /\
  in_range 0 0.8 (intensity a) /\
  NoDup (fired a) /\
  (List.length (fired a) <= 5)%nat.
Proof.
  unfold _analyze_initiative_needs.
  generalize (fgt boredom_level 0.5), (fgt boredom_level 0.3),
    (flt engagement (initiative_threshold (behavioral_params self))),
    (fgt (float_of_Z topic_persistence)
         (float_of_Z (topic_change_frequency (behavioral_params self)) * 1.5)),
    (topic_change_frequency (behavioral_params self) <? topic_persistence)%Z,
    (Emotional.mem (Emotional.primary_emotion emotional_state)
       ["bored"; "tired"]),
    (Emotional.mem (Emotional.primary_emotion emotional_state)
       ["contemplative"; "reflective"]),
    (String.eqb (Emotional.primary_emotion emotional_state) "neutral" &&
     flt engagement 0.5),
    (flt draw (curiosity_drive (behavioral_params self) * 0.1)).
  intros c1 c2 c3 c4 c5 c6 c7 c8 c9.
  destruct c1, c2, c3, c4, c5, c6, c7, c8, c9; cbv zeta;
    (split; [reflexivity|]); (split; [reflexivity|]);
    (split; [vm_compute; repeat (first [left; reflexivity | right])|]);
    (split; [reflexivity|]); (split; [split; reflexivity|]);
    (split; [apply (bool_decide_unpack _); vm_compute; exact I
            |apply Nat.leb_le; reflexivity]).
Qed.

(** X15. Whatever its inputs and the random draw,
    [_analyze_initiative_needs] is coherent: initiative is needed exactly
    when its type is not "none", which is exactly when some trigger
    fired; the type is strong, moderate, gentle or none; the intensity is
    [min(0.8, score)] when initiative is needed and 0 otherwise, and lies
    in [0, 0.8]; at most five triggers fire, each once. *)
Theorem initiative_analysis_coherent :
  forall (self : BehavioralEngine) (draw boredom_level engagement : float)
         (topic_persistence : Z) (emotional_state : Emotional.MoodState),
    let a :=
      _analyze_initiative_needs self draw boredom_level engagement
        topic_persistence emotional_state in
    needed a = negb (String.eqb (initiative_kind a) "none") /\
    needed a = negb (is_nil (fired a)) /\
    In (initiative_kind a) initiative_kinds /\
    intensity a = (if needed a then pymin 0.8 (score a) else 0%float) /\
    in_range 0 0.8 (intensity a) /\
    NoDup (fired a) /\
    (List.length (fired a) <= 5)%nat.
Proof. intros; apply initiative_analysis_cases. Qed.

Lemma behavioral_mode_values (emotional_state : Emotional.MoodState) :
  In (_determine_behavioral_mode emotional_state) behavioral_modes.
Proof.
  unfold _determine_behavioral_mode, behavioral_modes.
  repeat match goal with
         | |- context [if ?b then _ else _] => destruct b
         end; cbn; auto 10.
Qed.

(** X16. [analyze_conversation_state] changes nothing of the engine but
    the message counter of the topic, which it increments exactly when
    the window of recent messages is not empty.  In its snapshot,
    [topic_persistence] is the counter after the increment, the boredom
    level is at most 1, initiative is recommended exactly when the
    initiative type is not "none", the behavioural mode is one of the six
    modes, and engagement and energy are those of the mood. *)
Theorem analyze_conversation_state_frame :
  forall (now : timestamp) (draw : float) (recent_messages : list Message)
         (emotional_state : Emotional.MoodState) (self : BehavioralEngine),
    let r :=
      analyze_conversation_state now draw recent_messages emotional_state
        self in
    let snapshot := fst r in
    let self' := snd r in
    messages_on_topic self' =
      (messages_on_topic self + (if is_nil recent_messages then 0 else 1))%Z /\
    (conversation_topics self' = conversation_topics self /\
     topic_performance self' = topic_performance self /\
     initiative_history self' = initiative_history self /\
     current_topic self' = current_topic self /\
     topic_start_time self' = topic_start_time self /\
     behavioral_params self' = behavioral_params self) /\
    topic_persistence snapshot = messages_on_topic self' /\
    PrimFloat.leb (boredom_level snapshot) 1.0 = true /\
    initiative_recommended snapshot =
      negb (String.eqb (initiative_type snapshot) "none") /\
    In (behavioral_mode snapshot) behavioral_modes /\
    avg_engagement snapshot = Emotional.engagement_level emotional_state /\
    conversation_energy snapshot = Emotional.energy_level emotional_state.
Proof.
  intros now draw recent_messages emotional_state self r snapshot self'.
  subst r snapshot self'.
  cbn [analyze_conversation_state fst snd topic_persistence boredom_level
       initiative_recommended initiative_type behavioral_mode avg_engagement
       conversation_energy].
  split.
  { destruct recent_messages; cbn; lia. }
  split.
  { destruct recent_messages; repeat split. }
  split; [reflexivity|].
  split.
  { unfold _calculate_boredom_level; now apply pymin_le. }
  split; [apply initiative_analysis_cases|].
  split; [apply behavioral_mode_values|].
  split; reflexivity.
Qed.

(** *** Repetitive patterns *)

Lemma spread3_pairwise (a b c : Z) :
  (spread3 a b c <? 5)%Z =
  (Z.abs (a - b) <? 5)%Z && (Z.abs (b - c) <? 5)%Z && (Z.abs (a - c) <? 5)%Z.
Proof.
  unfold spread3.
  destruct (Z.ltb_spec (Z.max (Z.max a b) c - Z.min (Z.min a b) c) 5),
    (Z.ltb_spec (Z.abs (a - b)) 5), (Z.ltb_spec (Z.abs (b - c)) 5),
    (Z.ltb_spec (Z.abs (a - c)) 5); cbn; try reflexivity; lia.
Qed.

(** X17. [_detect_repetitive_pattern] answers false when the window has
    fewer than four messages or fewer than three of them are of the
    assistant.  Otherwise it answers true exactly when the word counts of
    the last three assistant messages differ pairwise by less than 5. *)
Theorem repetitive_pattern_spec :
  forall (recent_messages : list Message),
    let ai_messages :=
      List.filter (fun msg => String.eqb (role msg) "assistant")
        recent_messages in
    ((List.length recent_messages < 4)%nat ->
     _detect_repetitive_pattern recent_messages = false) /\
    ((List.length ai_messages < 3)%nat ->
     _detect_repetitive_pattern recent_messages = false) /\
    (forall (rest : list Message) (a b c : Message),
       (4 <= List.length recent_messages)%nat ->
       ai_messages = rest ++ [a; b; c] ->
       _detect_repetitive_pattern recent_messages =
         (Z.abs (words_of a - words_of b) <? 5)%Z &&
         (Z.abs (words_of b - words_of c) <? 5)%Z &&
         (Z.abs (words_of a - words_of c) <? 5)%Z).
Proof.
  intros recent_messages ai_messages; subst ai_messages.
  unfold _detect_repetitive_pattern.
  split; [|split].
  - intros Hlt.
    destruct (Nat.ltb_spec (List.length recent_messages) 4);
      [reflexivity|lia].
  - intros Hlt.
    destruct (List.length recent_messages <? 4)%nat; [reflexivity|].
    destruct (Nat.leb_spec 3
                (List.length
                   (List.filter (fun msg => String.eqb (role msg) "assistant")
                      recent_messages))); [lia|reflexivity].
  - intros rest a b c Hlen Hai.
    destruct (Nat.ltb_spec (List.length recent_messages) 4); [lia|].
    rewrite Hai, EmotionalProps.last_n_3_app.
    destruct (Nat.leb_spec 3 (List.length (rest ++ [a; b; c]))) as [_|Hlt].
    + cbn [map]; apply spread3_pairwise.
    + rewrite length_app in Hlt; cbn in Hlt; lia.
Qed.

Lemma repetitive_pattern_spec_witness :
  _detect_repetitive_pattern sample_window = true /\
  _detect_repetitive_pattern (take 3 sample_window) = false.
Proof.
  split.
  - rewrite (proj2 (proj2 (repetitive_pattern_spec sample_window))
               [] _ _ _ ltac:(cbn; lia) eq_refl).
    reflexivity.
  - apply (proj1 (repetitive_pattern_spec (take 3 sample_window))).
    cbn; lia.
Defined.

(** *** Guidance and suggestions *)

Lemma initiative_guidance_cases (context : GuidanceContext) :
  let g := get_initiative_guidance context in
  sublist g guidance_tags /\ NoDup g /\ (List.length g <= 5)%nat /\
  mem_tag "TOPIC_STALE" g =
    Emotional.mem "TOPIC_FATIGUE" (default [] (gc_initiative_triggers context)) /\
  mem_tag "CONVERSATION_STAGNANT" g =
    Emotional.mem "MODERATE_BOREDOM"
      (default [] (gc_initiative_triggers context)) /\
  mem_tag "BREAK_PATTERN" g = default false (gc_pattern_break_needed context).
Proof.
  unfold get_initiative_guidance, mem_tag.
  generalize
    (String.eqb (default "balanced" (gc_behavioral_mode context))
       "contemplative"),
    (String.eqb (default "balanced" (gc_behavioral_mode context))
       "low_energy"),
    (String.eqb (default "balanced" (gc_behavioral_mode context))
       "energetic"),
    (String.eqb (default "balanced" (gc_behavioral_mode context))
       "disengaged"),
    (String.eqb (default "none" (gc_initiative_type context)) "strong"),
    (String.eqb (default "none" (gc_initiative_type context)) "moderate"),
    (String.eqb (default "none" (gc_initiative_type context)) "gentle"),
    (Emotional.mem "TOPIC_FATIGUE"
       (default [] (gc_initiative_triggers context))),
    (Emotional.mem "MODERATE_BOREDOM"
       (default [] (gc_initiative_triggers context))),
    (default false (gc_pattern_break_needed context)).
  intros c1 c2 c3 c4 c5 c6 c7 c8 c9 c10.
  destruct c1, c2, c3, c4, c5, c6, c7, c8, c9, c10; vm_compute;
    (split; [repeat constructor|]);
    (split; [apply (bool_decide_unpack _); vm_compute; exact I|]);
    (split; [repeat constructor|]);
    repeat split.
Qed.

(** X18. [get_initiative_guidance] returns a selection of its ten tags in
    the fixed order mode, initiative, TOPIC_STALE, CONVERSATION_STAGNANT,
    BREAK_PATTERN, without repetition and of at most five tags;
    TOPIC_STALE is in it exactly when TOPIC_FATIGUE is among the
    triggers of the context, CONVERSATION_STAGNANT exactly when
    MODERATE_BOREDOM is, and BREAK_PATTERN exactly when the context asks
    for a pattern break. *)
Theorem initiative_guidance_tags :
  forall (context : GuidanceContext),
    let g := get_initiative_guidance context in
    sublist g guidance_tags /\ NoDup g /\ (List.length g <= 5)%nat /\
    mem_tag "TOPIC_STALE" g =
      Emotional.mem "TOPIC_FATIGUE"
        (default [] (gc_initiative_triggers context)) /\
    mem_tag "CONVERSATION_STAGNANT" g =
      Emotional.mem "MODERATE_BOREDOM"
        (default [] (gc_initiative_triggers context)) /\
    mem_tag "BREAK_PATTERN" g =
      default false (gc_pattern_break_needed context).
Proof. intros; apply initiative_guidance_cases. Qed.


Lemma suggest_actions_cases (context : ActionContext) :
  let actions := suggest_conversation_actions context in
  let bored := fgt (default 0%float (ac_boredom_level context)) 0.5 in
  let low := flt (default 0.5%float (ac_avg_engagement context)) 0.3 in
  NoDup actions /\ (List.length actions <= 4)%nat /\
  mem_tag "refresh_conversation" actions = bored /\
  mem_tag "spark_interest" actions = negb bored && low.
Proof.
  unfold suggest_conversation_actions, mem_tag.
  generalize
    (String.eqb (default "balanced" (ac_behavioral_mode context))
       "contemplative"),
    (String.eqb (default "balanced" (ac_behavioral_mode context))
       "low_energy"),
    (String.eqb (default "balanced" (ac_behavioral_mode context))
       "energetic"),
    (fgt (default 0%float (ac_boredom_level context)) 0.5),
    (flt (default 0.5%float (ac_avg_engagement context)) 0.3).
  intros c1 c2 c3 c4 c5.
  destruct c1, c2, c3, c4, c5; vm_compute;
    (split; [apply (bool_decide_unpack _); vm_compute; exact I|]);
    (split; [repeat constructor|]); split; reflexivity.
Qed.

(** X20. [suggest_conversation_actions] returns at most four actions, all
    different; the pair that refreshes the conversation is suggested
    exactly when the boredom level exceeds 0.5, and the pair that sparks
    interest exactly when it does not and the engagement is below 0.3. *)
Theorem suggested_actions :
  forall (context : ActionContext),
    let actions := suggest_conversation_actions context in
    let bored := fgt (default 0%float (ac_boredom_level context)) 0.5 in
    let low := flt (default 0.5%float (ac_avg_engagement context)) 0.3 in
    NoDup actions /\ (List.length actions <= 4)%nat /\
    mem_tag "refresh_conversation" actions = bored /\
    mem_tag "spark_interest" actions = negb bored && low.
Proof. intros; apply suggest_actions_cases. Qed.

(** *** The recent success rate *)

Lemma rate_in_range (k n : nat) :
  (k <= n)%nat -> (1 <= n <= 5)%nat ->
  in_range 0 1 (truediv (Z.of_nat k) (Z.of_nat n)).
Proof.
  intros Hk Hn.
  assert (Hn' : In n [1; 2; 3; 4; 5]%nat) by (cbn; lia).
  assert (Hk' : In k [0; 1; 2; 3; 4; 5]%nat) by (cbn; lia).
  cbn in Hn', Hk'.
  repeat (destruct Hn' as [<-|Hn']; [|]);
    try contradiction;
    repeat (destruct Hk' as [<-|Hk']; [try lia; split; reflexivity|]);
    contradiction.
Qed.

Lemma length_filter_le {A} (f : A -> bool) (l : list A) :
  (List.length (List.filter f l) <= List.length l)%nat.
Proof.
  induction l as [|x l IH]; cbn; [lia|].
  destruct (f x); cbn; lia.
Qed.

Lemma recent_success_rate_cases (self : BehavioralEngine) :
  let rate := _get_recent_success_rate self in
  let recent := recent_initiatives (initiative_history self) in
  in_range 0 1 rate /\
  rate =
    (if (List.length (initiative_history self) <? 2)%nat || is_nil recent
     then 0.5%float
     else success_rate recent).
Proof.
  cbv zeta; unfold _get_recent_success_rate.
  destruct (List.length (initiative_history self) <? 2)%nat;
    [split; [split|]; reflexivity|].
  destruct (recent_initiatives (initiative_history self)) as [|r rs] eqn:Hrec;
    [split; [split|]; reflexivity|].
  split; [|reflexivity].
  unfold success_rate. apply rate_in_range.
  - apply length_filter_le.
  - split; [cbn; lia|].
    rewrite <- Hrec; unfold recent_initiatives.
    pose proof (length_filter_le initiative_taken
                  (last_n 5 (initiative_history self))) as Hle.
    rewrite length_last_n in Hle. lia.
Qed.

(** X21. [_get_recent_success_rate] lies in [0, 1] for every state of the
    engine; it is the default 0.5 when fewer than two attempts are
    recorded or none of the last five took the initiative, and otherwise
    the share of successes among those that did. *)
Theorem recent_success_rate_in_range :
  forall (self : BehavioralEngine),
    let rate := _get_recent_success_rate self in
    let recent := recent_initiatives (initiative_history self) in
    in_range 0 1 rate /\
    rate =
      (if (List.length (initiative_history self) <? 2)%nat || is_nil recent
       then 0.5%float
       else success_rate recent).
Proof. intros self; apply recent_success_rate_cases. Qed.

(** *** What learning leaves alone *)

Lemma adapt_threshold_other (h : list InitiativeRecord) (p : BehavioralParams) :
  topic_change_frequency (adapt_threshold h p) = topic_change_frequency p /\
  curiosity_drive (adapt_threshold h p) = curiosity_drive p /\
  empathy_response (adapt_threshold h p) = empathy_response p /\
  boredom_tolerance (adapt_threshold h p) = boredom_tolerance p.
Proof.
  unfold adapt_threshold.
  destruct (4 <=? List.length h)%nat; [|repeat split].
  destruct (recent_initiatives h); [repeat split|].
  destruct (fgt _ 0.8); [repeat split|].
  destruct (flt _ 0.3); repeat split.
Qed.

Lemma learn_from_outcome_step_frame now taken result self :
  let self' := learn_from_outcome now taken result self in
  topic_change_frequency (behavioral_params self') =
    topic_change_frequency (behavioral_params self) /\
  curiosity_drive (behavioral_params self') =
    curiosity_drive (behavioral_params self) /\
  empathy_response (behavioral_params self') =
    empathy_response (behavioral_params self) /\
  boredom_tolerance (behavioral_params self') =
    boredom_tolerance (behavioral_params self) /\
  conversation_topics self' = conversation_topics self /\
  topic_performance self' = topic_performance self /\
  current_topic self' = current_topic self /\
  topic_start_time self' = topic_start_time self /\
  messages_on_topic self' = messages_on_topic self.
Proof.
  cbv zeta.
  cbn [learn_from_outcome behavioral_params conversation_topics
       topic_performance current_topic topic_start_time messages_on_topic].
  pose proof (adapt_threshold_other
                (trim_initiative_history
                   (initiative_history self ++
                    [{| ir_timestamp := now; initiative_taken := taken;
                        engagement_result := result;
                        success := fgt result 0.6;
                        strong_success := fgt result 0.8 |}]))
                (behavioral_params self)) as (H1 & H2 & H3 & H4).
  repeat split; assumption.
Qed.

Lemma run_outcomes_frame now0 calls :
  let b := Runs.run_outcomes now0 calls in
  topic_change_frequency (behavioral_params b) = 4%Z /\
  curiosity_drive (behavioral_params b) = 0.7%float /\
  empathy_response (behavioral_params b) = 0.6%float /\
  boredom_tolerance (behavioral_params b) = 0.4%float /\
  topic_performance b = ∅ /\
  current_topic b = None /\
  messages_on_topic b = 0%Z.
Proof.
  cbv zeta; induction calls as [|c calls IH] using rev_ind.
  - repeat split.
  - rewrite BehavioralProps.run_outcomes_snoc.
    destruct c as [[now1 taken1] result1]; cbn [Runs.do_outcome].
    destruct (learn_from_outcome_step_frame now1 taken1 result1
                (Runs.run_outcomes now0 calls))
      as (H1 & H2 & H3 & H4 & _ & H6 & H7 & _ & H9).
    destruct IH as (I1 & I2 & I3 & I4 & I6 & I7 & I9).
    repeat split; congruence.
Qed.

(** X22. [learn_from_outcome] touches the initiative history and the
    initiative threshold only: the other four behavioural parameters and
    all topic bookkeeping are as before the call.  Hence after any
    sequence of such calls on a fresh engine the topic change frequency
    is still 4, the curiosity drive 0.7, the empathy response 0.6, the
    boredom tolerance 0.4, and no topic is tracked. *)
Theorem learn_from_outcome_frame :
  forall (now0 : timestamp) (calls : list Runs.outcome_call)
         (now : timestamp) (taken : bool) (result : float)
         (self : BehavioralEngine),
    let self' := learn_from_outcome now taken result self in
    let b := Runs.run_outcomes now0 calls in
    (topic_change_frequency (behavioral_params self') =
       topic_change_frequency (behavioral_params self) /\
     curiosity_drive (behavioral_params self') =
       curiosity_drive (behavioral_params self) /\
     empathy_response (behavioral_params self') =
       empathy_response (behavioral_params self) /\
     boredom_tolerance (behavioral_params self') =
       boredom_tolerance (behavioral_params self) /\
     conversation_topics self' = conversation_topics self /\
     topic_performance self' = topic_performance self /\
     current_topic self' = current_topic self /\
     topic_start_time self' = topic_start_time self /\
     messages_on_topic self' = messages_on_topic self) /\
    (topic_change_frequency (behavioral_params b) = 4%Z /\
     curiosity_drive (behavioral_params b) = 0.7%float /\
     empathy_response (behavioral_params b) = 0.6%float /\
     boredom_tolerance (behavioral_params b) = 0.4%float /\
     topic_performance b = ∅ /\
     current_topic b = None /\
     messages_on_topic b = 0%Z).
Proof.
  intros now0 calls now taken result self self' b.
  split; [apply learn_from_outcome_step_frame|apply run_outcomes_frame].
Qed.

(** X27. On every engine reached by [learn_from_outcome] calls from a
    fresh one, [get_behavioral_context] succeeds (the topic change
    frequency is not 0) and reports an initiative threshold in
    [0.2, 0.6], a recent success rate in [0, 1], no current topic and a
    topic change readiness of 0. *)
Theorem behavioral_context_after_learning :
  forall (now0 : timestamp) (calls : list Runs.outcome_call)
         (now : timestamp),
    let b := Runs.run_outcomes now0 calls in
    exists ctx,
      get_behavioral_context now b = Some ctx /\
      in_range 0.2 0.6 (bc_initiative_threshold ctx) /\
      in_range 0 1 (recent_initiative_success ctx) /\
      bc_current_topic ctx = None /\
      bc_messages_on_topic ctx = 0%Z /\
      topic_change_readiness ctx = 0%float.
Proof.
  intros now0 calls now b.
  destruct (run_outcomes_frame now0 calls)
    as (Hf & _ & _ & _ & _ & Htopic & Hmsg).
  fold b in Hf, Htopic, Hmsg.
  unfold get_behavioral_context; rewrite Hf; cbn [Z.eqb].
  eexists; split; [reflexivity|].
  cbn [bc_initiative_threshold recent_initiative_success bc_current_topic
       bc_messages_on_topic topic_change_readiness].
  split; [apply BehavioralProps.thresholds_bounded,
            BehavioralProps.run_outcomes_threshold|].
  split; [apply recent_success_rate_cases|].
  split; [exact Htopic|]. split; [exact Hmsg|].
  rewrite Hmsg; reflexivity.
Qed.

(** *** Topic tracking *)

Lemma length_append_str (a b : string) :
  String.length (a +:+ b) = (String.length a + String.length b)%nat.
Proof.
  induction a as [|c a IH]; [reflexivity|].
  change (String c a +:+ b) with (String c (a +:+ b)); cbn.
  now rewrite IH.
Qed.

(** X23. A call of [update_topic_tracking] that announces a new topic
    resets the message counter to 0 and the start time to the clock, and
    makes current a topic with a non-empty name: the given one, or
    "topic_" followed by six characters of the clock when none or an
    empty one is given.  It leaves the initiative history and the
    behavioural parameters alone.  When a topic with a non-empty name was
    current, its performance is recorded under that name, with the
    message counter and the clock of the call and a success score in
    [0, 1], and the other records are kept; when none was, the
    performance table is unchanged. *)
Theorem new_topic_bookkeeping :
  forall (now : timestamp) (topic_name : option string)
         (self : BehavioralEngine),
    let self' := update_topic_tracking now true topic_name self in
    messages_on_topic self' = 0%Z /\
    topic_start_time self' = now /\
    (exists name,
       current_topic self' = Some name /\
       nonempty (Some name) = Some name /\
       name = default ("topic_" +:+ strftime_HMS now) (nonempty topic_name)) /\
    String.length ("topic_" +:+ strftime_HMS now) = 12%nat /\
    initiative_history self' = initiative_history self /\
    behavioral_params self' = behavioral_params self /\
    match nonempty (current_topic self) with
    | Some old =>
        (exists perf,
           topic_performance self' !! old = Some perf /\
           messages perf = messages_on_topic self /\
           last_used perf = now /\
           in_range 0 1 (success_score perf)) /\
        delete old (topic_performance self') =
          delete old (topic_performance self)
    | None => topic_performance self' = topic_performance self
    end.
Proof.
  intros now topic_name self self'; subst self'.
  cbn [update_topic_tracking messages_on_topic topic_start_time current_topic
       initiative_history behavioral_params topic_performance].
  split; [reflexivity|]. split; [reflexivity|]. split.
  { eexists; split; [reflexivity|]. split; [|reflexivity].
    destruct (nonempty topic_name) as [name|] eqn:Hname;
      cbn [from_option id].
    - destruct topic_name as [t|]; [|discriminate].
      cbn in Hname. destruct (String.eqb t EmptyString) eqn:Ht;
        [discriminate|].
      injection Hname as <-. cbn; now rewrite Ht.
    - reflexivity. }
  split.
  { unfold strftime_HMS; rewrite !length_append_str; reflexivity. }
  split; [reflexivity|]. split; [reflexivity|].
  destruct (nonempty (current_topic self)) as [old|].
  - split.
    + eexists; split; [apply lookup_insert_eq|].
      cbn [messages last_used success_score].
      repeat split; try apply clamp_in_range; reflexivity.
    + apply delete_insert_eq.
  - reflexivity.
Qed.

Lemma run_analyze_fields (calls : list analyze_call) (self : BehavioralEngine) :
  current_topic (run_analyze calls self) = current_topic self /\
  topic_performance (run_analyze calls self) = topic_performance self /\
  messages_on_topic (run_analyze calls self) =
    (messages_on_topic self + Z.of_nat (nonempty_windows calls))%Z.
Proof.
  unfold run_analyze, nonempty_windows.
  revert self; induction calls as [|c calls IH]; intros self.
  - cbn; repeat split; lia.
  - cbn [fold_left List.filter].
    destruct (IH (do_analyze self c)) as (H1 & H2 & H3).
    rewrite H1, H2, H3.
    destruct c as [[[now draw] recent_messages] emotional_state].
    cbn [do_analyze analyze_conversation_state snd fst].
    destruct recent_messages as [|m ms]; cbn; repeat split; lia.
Qed.

(** X24. The number of messages recorded for a topic is the number of
    analyses with a non-empty window made while it was current: after a
    topic with a non-empty name is announced, any sequence of
    [analyze_conversation_state] calls follows and a new topic is
    announced, the performance table holds for the first name a record
    whose message count is that number and whose last use is the clock of
    the second announcement. *)
Theorem topic_message_count :
  forall (t1 t2 : timestamp) (name : string) (next_name : option string)
         (calls : list analyze_call) (self : BehavioralEngine),
    name <> EmptyString ->
    let s1 := update_topic_tracking t1 true (Some name) self in
    let s2 := run_analyze calls s1 in
    let s3 := update_topic_tracking t2 true next_name s2 in
    exists perf,
      topic_performance s3 !! name = Some perf /\
      messages perf = Z.of_nat (nonempty_windows calls) /\
      last_used perf = t2.
Proof.
  intros t1 t2 name next_name calls self Hname s1 s2 s3.
  assert (Hne : nonempty (Some name) = Some name).
  { cbn. destruct (String.eqb_spec name EmptyString); [contradiction|].
    reflexivity. }
  destruct (run_analyze_fields calls s1) as (Htopic & _ & Hcount).
  fold s2 in Htopic, Hcount.
  assert (Hcur : nonempty (current_topic s2) = Some name).
  { rewrite Htopic; subst s1.
    cbn [update_topic_tracking current_topic]. now rewrite Hne. }
  assert (Hmsg : messages_on_topic s2 = Z.of_nat (nonempty_windows calls)).
  { rewrite Hcount; subst s1; cbn [update_topic_tracking messages_on_topic].
    lia. }
  subst s3; cbn [update_topic_tracking topic_performance].
  rewrite Hcur.
  eexists; split; [apply lookup_insert_eq|].
  cbn [messages last_used]; split; [exact Hmsg|reflexivity].
Qed.

Lemma topic_message_count_witness :
  exists perf,
    topic_performance
      (update_topic_tracking 90000000%Z true None
         (run_analyze
            [(10000000%Z, 0.5%float, sample_window,
              Emotional.current_mood (Emotional.init 0%Z));
             (20000000%Z, 0.5%float, [],
              Emotional.current_mood (Emotional.init 0%Z))]
            (update_topic_tracking 0%Z true (Some "weather")
               (Behavioral.init 0%Z)))) !! "weather" = Some perf /\
    messages perf = 1%Z /\ last_used perf = 90000000%Z.
Proof.
  apply (topic_message_count 0%Z 90000000%Z "weather" None
           [(10000000%Z, 0.5%float, sample_window,
             Emotional.current_mood (Emotional.init 0%Z));
            (20000000%Z, 0.5%float, [],
             Emotional.current_mood (Emotional.init 0%Z))]
           (Behavioral.init 0%Z)).
  discriminate.
Defined.

End BehavioralMore.

(** ** The comparison of replies *)

Module OrchestratorProps.

Import Orchestrator Notions FloatProps.

Lemma word_set_no_words (text : string) :
  split (lower text) = [] -> size (word_set text) = 0%nat.
Proof. intros H; unfold word_set; now rewrite H. Qed.

(** X25. The word similarity of [_calculate_pure_response_difference]
    does not depend on the order of the two texts, nor does the flag
    [significant_change]; and the length difference changes sign. *)
Theorem word_similarity_symmetric :
  forall (a b : string),
    let m := _calculate_pure_response_difference a b in
    let m' := _calculate_pure_response_difference b a in
    word_similarity m = word_similarity m' /\
    significant_change m = significant_change m' /\
    length_difference m = (- length_difference m')%Z.
Proof.
  intros a b m m'; subst m m'.
  assert (Hsim :
    word_similarity (_calculate_pure_response_difference a b) =
    word_similarity (_calculate_pure_response_difference b a)).
  { cbn [_calculate_pure_response_difference word_similarity].
    assert (Hi : word_set a ∩ word_set b = word_set b ∩ word_set a)
      by (apply set_eq; intros x; rewrite !elem_of_intersection; tauto).
    assert (Hu : word_set a ∪ word_set b = word_set b ∪ word_set a)
      by (apply set_eq; intros x; rewrite !elem_of_union; tauto).
    now rewrite Hi, Hu, andb_comm. }
  split; [exact Hsim|]. split.
  - cbn [_calculate_pure_response_difference significant_change].
    cbn [_calculate_pure_response_difference word_similarity] in Hsim.
    now rewrite Hsim.
  - cbn [_calculate_pure_response_difference length_difference]. lia.
Qed.

(** X26. When one of the two texts has no word (it is empty or only
    whitespace), [_calculate_pure_response_difference] reports the
    similarity 0 and a significant change; when the raw text is empty the
    length ratio is 0 rather than a division by zero; and the variety
    score never exceeds 1. *)
Theorem response_difference_edges :
  forall (raw_response final_response : string),
    let m := _calculate_pure_response_difference raw_response
               final_response in
    (split (lower raw_response) = [] \/ split (lower final_response) = [] ->
     word_similarity m = 0%float /\ significant_change m = true) /\
    (raw_response = EmptyString -> length_ratio m = 0%float) /\
    PrimFloat.leb (natural_variety m) 1.0 = true.
Proof.
  intros raw_response final_response m; subst m.
  split; [|split].
  - intros Hempty.
    assert (Hsim :
      word_similarity
        (_calculate_pure_response_difference raw_response final_response) =
      0%float).
    { cbn [_calculate_pure_response_difference word_similarity].
      destruct Hempty as [H|H]; apply word_set_no_words in H; rewrite H;
        cbn [Nat.eqb negb andb]; [reflexivity|].
      now rewrite andb_false_r. }
    split; [exact Hsim|].
    cbn [_calculate_pure_response_difference significant_change].
    cbn [_calculate_pure_response_difference word_similarity] in Hsim.
    now rewrite Hsim.
  - intros ->; reflexivity.
  - cbn [_calculate_pure_response_difference natural_variety].
    now apply pymin_le.
Qed.

Lemma response_difference_edges_witness :
  word_similarity (_calculate_pure_response_difference "   " "Hello") =
    0%float /\
  length_ratio (_calculate_pure_response_difference "" "Hello") = 0%float.
Proof.
  split.
  - apply (proj1 (response_difference_edges "   " "Hello")).
    left; reflexivity.
  - apply (proj1 (proj2 (response_difference_edges "" "Hello"))).
    reflexivity.
Defined.

End OrchestratorProps.
